(** * The Google OAuth2 provider of the auth backend

    A shallow embedding of
    [plugins/auth-backend/src/providers/google/provider.ts]:
    the four route handlers of [GoogleAuthProvider] ([start],
    [frameHandler], [logout], [refresh]) and the verify callback of its
    passport strategy, together with the properties of the CSRF-safe
    handshake and of the refresh-token life cycle.

    The handlers are written in a small state-and-exception monad.  The
    state holds the log of what a handler did to the response and to its
    collaborators, in program order, and the number of bytes drawn from
    the random source. *)

From Stdlib Require Import ZArith NArith String Ascii List DecimalString Lia.
From Stdlib.Strings Require Import Byte.
From coqutil Require Import Z.bitblast.
From stdpp Require Import base gmap strings list.

Local Open Scope string_scope.
Local Open Scope Z_scope.

(** ** JavaScript values *)

(** The numbers of the model are the safe integers, below 2^53 in absolute
    value: a double holds them exactly and prints them digit by digit.
    Other numbers are not modelled. *)
Record safe_integer : Type := SafeInteger {
  integer : Z;
  integer_safe : Is_true (Z.abs integer <? 2 ^ 53);
}.

Abbreviation safe z := (SafeInteger z I) (only parsing).

(** The values that reach the handlers: what [cookie-parser] and [qs] put
    in [req.cookies] and [req.query], what passport hands to a callback.
    A [JObj] is a plain object whose own properties hold data, never a
    function; [JError] is an [Error] object with its [name] and
    [message]. *)
#[local] Set Warnings "-register-all".
Inductive jsval : Type :=
| JUndefined
| JNull
| JBool (b : bool)
| JNum (n : safe_integer)
| JStr (s : string)
| JArr (items : list jsval)
| JObj (fields : gmap string jsval)
| JError (name message : string).
#[local] Set Warnings "register-all".

(** [ToBoolean], as used by [!x], [if (x)] and [a || b]. *)
Definition truthy (v : jsval) : bool :=
  match v with
  | JUndefined | JNull => false
  | JBool b => b
  | JNum n => negb (integer n =? 0)
  | JStr s => negb (String.eqb s "")
  | JArr _ | JObj _ | JError _ _ => true
  end.

(** [a === b] for two values that are not the same allocation: primitives
    are compared by value, objects by identity.  Its only use compares a
    value of [req.cookies] with a value of [req.query], which come from
    two different parsers, so two objects are never identical. *)
Definition strict_eq (a b : jsval) : bool :=
  match a, b with
  | JUndefined, JUndefined => true
  | JNull, JNull => true
  | JBool x, JBool y => Bool.eqb x y
  | JNum x, JNum y => integer x =? integer y
  | JStr x, JStr y => String.eqb x y
  | _, _ => false
  end.

(** [items.join(sep)] on strings. *)
Fixpoint join (sep : string) (items : list string) : string :=
  match items with
  | [] => ""
  | [s] => s
  | s :: rest => s +:+ sep +:+ join sep rest
  end.

(** [v.toString()] and the string conversion of a template literal;
    [None] is the [TypeError] of a conversion that fails.  A plain object
    prints as [[object Object]] through [Object.prototype.toString]; with
    an own [toString] property, which holds data and cannot be called,
    the method call fails, and so does the conversion to a primitive
    (the inherited [valueOf] returns the object).
    [Array.prototype.toString] joins with a comma, prints [null] and
    [undefined] elements as the empty string and converts the others,
    failing when one of them fails. *)
Fixpoint toString (v : jsval) : option string :=
  match v with
  | JUndefined => Some "undefined"
  | JNull => Some "null"
  | JBool true => Some "true"
  | JBool false => Some "false"
  | JNum n => Some (NilZero.string_of_int (Z.to_int (integer n)))
  | JStr s => Some s
  | JArr items =>
      join "," <$>
        ((fix each (l : list jsval) : option (list string) :=
            match l with
            | [] => Some []
            | JUndefined :: l' | JNull :: l' => cons "" <$> each l'
            | x :: l' => s ← toString x; cons s <$> each l'
            end) items)
  | JObj fields =>
      match fields !! "toString" with
      | Some _ => None
      | None => Some "[object Object]"
      end
  | JError name message =>
      Some (if String.eqb name "" then message
            else if String.eqb message "" then name
            else name +:+ ": " +:+ message)
  end.

(** [o[k]] on a plain object: [undefined] when the key is absent. *)
Definition prop (o : gmap string jsval) (k : string) : jsval :=
  default JUndefined (o !! k).

(** [v.k] on a value that is neither [undefined] nor [null], for a key
    that only plain objects carry: the keys read this way are
    [refreshToken], [id_token], [expires_in] and [scope], none of which
    is a property of a string, a number, a boolean, an array or an
    [Error]. *)
Definition member (v : jsval) (k : string) : jsval :=
  match v with
  | JObj o => prop o k
  | _ => JUndefined
  end.

(** [delete v.k]. *)
Definition delete_prop (k : string) (v : jsval) : jsval :=
  match v with
  | JObj o => JObj (delete k o)
  | _ => v
  end.

(** [new Error(message)]. *)
Definition new_Error (message : string) : jsval := JError "Error" message.

(** ** Base64, as [buf.toString('base64')] prints a buffer

    RFC 4648 section 4: three bytes make four digits of six bits, the
    last group is padded with [=]. *)

Definition base64_alphabet : string :=
  "ABCDEFGHIJKLMNOPQRSTUVWXYZabcdefghijklmnopqrstuvwxyz0123456789+/".

(** The digit for the low six bits of [n]. *)
Definition base64_digit (n : Z) : ascii :=
  match String.get (Z.to_nat (Z.land n 63)) base64_alphabet with
  | Some c => c
  | None => "="%char
  end.

Definition byte_value (b : byte) : Z := Z.of_N (Byte.to_N b).

Fixpoint base64_chars (bytes : list byte) : list ascii :=
  match bytes with
  | [] => []
  | [a] =>
      let n := Z.shiftl (byte_value a) 16 in
      [base64_digit (Z.shiftr n 18); base64_digit (Z.shiftr n 12);
       "="%char; "="%char]
  | [a; b] =>
      let n := Z.lor (Z.shiftl (byte_value a) 16) (Z.shiftl (byte_value b) 8) in
      [base64_digit (Z.shiftr n 18); base64_digit (Z.shiftr n 12);
       base64_digit (Z.shiftr n 6); "="%char]
  | a :: b :: c :: rest =>
      let n := Z.lor (Z.lor (Z.shiftl (byte_value a) 16)
                            (Z.shiftl (byte_value b) 8)) (byte_value c) in
      base64_digit (Z.shiftr n 18) :: base64_digit (Z.shiftr n 12)
        :: base64_digit (Z.shiftr n 6) :: base64_digit n
        :: base64_chars rest
  end.

Definition toString_base64 (bytes : list byte) : string :=
  string_of_list_ascii (base64_chars bytes).

(** Reading a base64 text back.  The provider never decodes a nonce; the
    reader serves to state that the text determines the bytes. *)
Fixpoint index_of (c : ascii) (s : string) : option Z :=
  match s with
  | EmptyString => None
  | String d s' => if Ascii.eqb c d then Some 0 else Z.succ <$> index_of c s'
  end.

Definition base64_value (c : ascii) : option Z := index_of c base64_alphabet.

Definition byte_of (z : Z) : byte :=
  default x00 (Byte.of_N (Z.to_N (Z.land z 255))).

Fixpoint base64_bytes (chars : list ascii) : option (list byte) :=
  match chars with
  | [] => Some []
  | c1 :: c2 :: c3 :: c4 :: rest =>
      v1 ← base64_value c1;
      v2 ← base64_value c2;
      let b1 := byte_of (Z.lor (Z.shiftl v1 2) (Z.shiftr v2 4)) in
      match base64_value c3, base64_value c4, rest with
      | Some v3, Some v4, _ =>
          let b2 := byte_of (Z.lor (Z.shiftl v2 4) (Z.shiftr v3 2)) in
          let b3 := byte_of (Z.lor (Z.shiftl v3 6) v4) in
          tail ← base64_bytes rest; Some (b1 :: b2 :: b3 :: tail)
      | Some v3, None, [] =>
          if Ascii.eqb c4 "=" then
            Some [b1; byte_of (Z.lor (Z.shiftl v2 4) (Z.shiftr v3 2))]
          else None
      | None, None, [] =>
          if Ascii.eqb c3 "=" && Ascii.eqb c4 "=" then Some [b1] else None
      | _, _, _ => None
      end
  | _ => None
  end.

(** ** Requests, cookie options, effects *)

Record request : Type := {
  cookies : gmap string jsval;   (* req.cookies *)
  query : gmap string jsval;     (* req.query *)
  headers : gmap string string;  (* request headers, names in lower case *)
}.

(** [CookieOptions] of express, with the fields the handlers set. *)
Record CookieOptions : Type := {
  maxAge : Z;
  secure : bool;
  sameSite : string;
  domain : string;
  path : string;
  httpOnly : bool;
}.

(** [AuthProviderConfig] of [types], with the two fields the class reads. *)
Record AuthProviderConfig : Type := {
  provider : string;
  options : gmap string jsval;
}.

Definition THOUSAND_DAYS_MS : Z := 1000 * 24 * 60 * 60 * 1000.
Definition TEN_MINUTES_MS : Z := 600 * 1000.

(** The second argument of [passport.authenticate]: an options object
    ([start]) or a custom callback ([frameHandler]). *)
Inductive authenticate_arg : Type :=
| AuthOptions (opts : gmap string jsval)
| AuthCallback.

(** What a handler does, one entry per call, in program order: a lookup in
    [req.cookies], [res.cookie], [res.status], [res.send],
    [postMessageResponse(res, data)] of [utils] (recorded with the data it
    is given), [passport.authenticate(..)(req, res, next)] and
    [refresh.requestNewAccessToken]. *)
Inductive effect : Type :=
| ReadCookie (name : string)
| ResCookie (name : string) (value : jsval) (opts : CookieOptions)
| ResStatus (code : Z)
| ResSend (body : jsval)
| PostMessageResponse (data : jsval)
| PassportAuthenticate (strategy : string) (arg : authenticate_arg)
| RequestNewAccessToken (name : string) (refreshToken : jsval)
    (params : gmap string jsval).

Inductive exn : Type :=
| InputError (message : string)
| TypeError.

Inductive outcome (A : Type) : Type :=
| Returned (a : A)
| Thrown (e : exn).
Arguments Returned {A} a.
Arguments Thrown {A} e.

Record state : Type := {
  drawn : nat;          (* bytes taken from the random source so far *)
  log : list effect;
}.

Definition handler (A : Type) : Type := state -> outcome A * state.

#[export] Instance handler_ret : MRet handler :=
  fun A a s => (Returned a, s).

#[export] Instance handler_bind : MBind handler :=
  fun A B k m s =>
    match m s with
    | (Returned a, s') => k a s'
    | (Thrown e, s') => (Thrown e, s')
    end.

Definition throw {A : Type} (e : exn) : handler A :=
  fun s => (Thrown e, s).

Definition emit (e : effect) : handler unit :=
  fun s => (Returned tt, {| drawn := drawn s; log := log s ++ [e] |}).

Definition initial : state := {| drawn := 0%nat; log := [] |}.

(** The log of a handler run on a fresh response. *)
Definition trace {A : Type} (h : handler A) : list effect := log (snd (h initial)).

Definition result {A : Type} (h : handler A) : outcome A := fst (h initial).

(** ** The provider *)

Section GoogleAuthProvider.

(** [this.providerConfig]. *)
Variable providerConfig : AuthProviderConfig.

(** The collaborators of the class, which it calls and does not define:
    the bytes [crypto.randomBytes] hands out, the header check of
    [utils], the arguments with which passport invokes the custom
    callback of [frameHandler] and those with which
    [passport-oauth2-refresh] invokes the callback of [refresh]
    ([None]: the library answers the request itself and never calls
    back). *)
Variable entropy : nat -> byte.
Variable ensuresXRequestedWith : request -> bool.
Variable exchange : request -> option (jsval * jsval).
Variable grant :
  string -> jsval -> gmap string jsval ->
  option (jsval * jsval * jsval * jsval).

(** [crypto.randomBytes(n)]: the next [n] bytes of the source. *)
Definition randomBytes (n : nat) : handler (list byte) :=
  fun s =>
    (Returned (map entropy (seq (drawn s) n)),
     {| drawn := (drawn s + n)%nat; log := log s |}).

(** [req.cookies[name]]. *)
Definition req_cookie (req : request) (name : string) : handler jsval :=
  emit (ReadCookie name);; mret (prop (cookies req) name).

(** [v.k] read from a value: a [TypeError] on [undefined] and [null]. *)
Definition get (v : jsval) (k : string) : handler jsval :=
  match v with
  | JUndefined | JNull => throw TypeError
  | _ => mret (member v k)
  end.

(** The value of a conversion, or the [TypeError] it throws. *)
Definition converted {A : Type} (o : option A) : handler A :=
  match o with
  | Some a => mret a
  | None => throw TypeError
  end.

(** [req.query.scope?.toString() ?? '']; [None] when [toString] throws. *)
Definition scope_of (req : request) : option string :=
  match prop (query req) "scope" with
  | JUndefined | JNull => Some ""
  | v => toString v
  end.

Definition start (req : request) : handler unit :=
  bytes ← randomBytes 16;
  let nonce := toString_base64 bytes in
  let options :=
    {| maxAge := TEN_MINUTES_MS;
       secure := false;
       sameSite := "none";
       domain := "localhost";
       path := "/auth/" +:+ provider providerConfig +:+ "/handler";
       httpOnly := true |} in
  emit (ResCookie (provider providerConfig +:+ "-nonce") (JStr nonce) options);;
  scope ← converted (scope_of req);
  if negb (truthy (JStr scope)) then
    throw (InputError "missing scope parameter")
  else
    emit (PassportAuthenticate "google"
            (AuthOptions
               (<["scope" := JStr scope]>
                  (<["accessType" := JStr "offline"]>
                     (<["prompt" := JStr "consent"]>
                        (<["state" := JStr nonce]> ∅)))))).

(** The custom callback [(err, user) => ...] of [frameHandler]. *)
Definition frameHandler_callback (err user : jsval) : handler unit :=
  if truthy err then
    text ← converted (toString err);
    emit (PostMessageResponse
            (JObj (<["type" := JStr "auth-result"]>
                     (<["error" := new_Error ("Google auth failed, " +:+ text)]>
                        ∅))))
  else
    refreshToken ← get user "refreshToken";
    if negb (truthy refreshToken) then
      emit (PostMessageResponse
              (JObj (<["type" := JStr "auth-result"]>
                       (<["error" := new_Error "Missing refresh token"]> ∅))))
    else
      let user := delete_prop "refreshToken" user in
      let options :=
        {| maxAge := THOUSAND_DAYS_MS;
           secure := false;
           sameSite := "none";
           domain := "localhost";
           path := "/auth/" +:+ provider providerConfig;
           httpOnly := true |} in
      emit (ResCookie (provider providerConfig +:+ "-refresh-token")
              refreshToken options);;
      emit (PostMessageResponse
              (JObj (<["type" := JStr "auth-result"]>
                       (<["payload" := user]> ∅)))).

Definition frameHandler (req : request) : handler unit :=
  cookieNonce ← req_cookie req (provider providerConfig +:+ "-nonce");
  let stateNonce := prop (query req) "state" in
  if negb (truthy cookieNonce) || negb (truthy stateNonce) then
    emit (ResStatus 401);; emit (ResSend (JStr "Missing nonce"))
  else if negb (strict_eq cookieNonce stateNonce) then
    emit (ResStatus 401);; emit (ResSend (JStr "Invalid nonce"))
  else
    emit (PassportAuthenticate "google" AuthCallback);;
    match exchange req with
    | Some (err, user) => frameHandler_callback err user
    | None => mret tt
    end.

Definition logout (req : request) : handler unit :=
  if negb (ensuresXRequestedWith req) then
    emit (ResStatus 401);;
    emit (ResSend (JStr "Invalid X-Requested-With header"))
  else
    let options :=
      {| maxAge := 0;
         secure := false;
         sameSite := "none";
         domain := "localhost";
         path := "/auth/" +:+ provider providerConfig;
         httpOnly := true |} in
    emit (ResCookie (provider providerConfig +:+ "-refresh-token")
            (JStr "") options);;
    emit (ResSend (JStr "logout!")).

(** The callback [(err, accessToken, _refreshToken, params) => ...] of
    [refresh]. *)
Definition refresh_callback
    (err accessToken _refreshToken params : jsval) : handler unit :=
  if truthy err || negb (truthy accessToken) then
    emit (ResStatus 401);;
    emit (ResSend (JStr "Failed to refresh access token"))
  else
    id_token ← get params "id_token";
    expires_in ← get params "expires_in";
    scope ← get params "scope";
    emit (ResSend
            (JObj (<["accessToken" := accessToken]>
                     (<["idToken" := id_token]>
                        (<["expiresInSeconds" := expires_in]>
                           (<["scope" := scope]> ∅)))))).

Definition refresh (req : request) : handler unit :=
  if negb (ensuresXRequestedWith req) then
    emit (ResStatus 401);;
    emit (ResSend (JStr "Invalid X-Requested-With header"))
  else
    refreshToken ←
      req_cookie req (provider providerConfig +:+ "-refresh-token");
    if negb (truthy refreshToken) then
      emit (ResStatus 401);; emit (ResSend (JStr "Missing session cookie"))
    else
      scope ← converted (scope_of req);
      let refreshTokenRequestParams : gmap string jsval :=
        if truthy (JStr scope) then <["scope" := JStr scope]> ∅ else ∅ in
      emit (RequestNewAccessToken (provider providerConfig) refreshToken
              refreshTokenRequestParams);;
      match grant (provider providerConfig) refreshToken
              refreshTokenRequestParams with
      | Some (err, accessToken, _refreshToken, params) =>
          refresh_callback err accessToken _refreshToken params
      | None => mret tt
      end.

(** The verify callback of [strategy()]: the arguments it passes to
    [done]. *)
Definition strategy_verify
    (accessToken refreshToken params profile : jsval)
    : handler (jsval * jsval) :=
  id_token ← get params "id_token";
  scope ← get params "scope";
  expires_in ← get params "expires_in";
  mret (JUndefined,
        JObj (<["profile" := profile]>
                (<["idToken" := id_token]>
                   (<["accessToken" := accessToken]>
                      (<["refreshToken" := refreshToken]>
                         (<["scope" := scope]>
                            (<["expiresInSeconds" := expires_in]> ∅))))))).

(** [strategy()]: the options and the verify callback given to
    [GoogleStrategy]. *)
Definition strategy
    : gmap string jsval
      * (jsval -> jsval -> jsval -> jsval -> handler (jsval * jsval)) :=
  (options providerConfig, strategy_verify).

End GoogleAuthProvider.

(** ** Reading a log *)

(** The [Set-Cookie] entries a run staged on the response. *)
Definition cookies_set (t : list effect) : list (string * jsval * CookieOptions) :=
  omap (fun e => match e with
                 | ResCookie n v o => Some (n, v, o)
                 | _ => None
                 end) t.

(** The cookie names a run looked up in [req.cookies]. *)
Definition cookies_read (t : list effect) : list string :=
  omap (fun e => match e with ReadCookie n => Some n | _ => None end) t.

(** The status of the response: the last [res.status(..)], 200 without. *)
Definition statusCode (t : list effect) : Z :=
  foldl (fun code e => match e with ResStatus c => c | _ => code end) 200 t.

(** The bodies given to [res.send]. *)
Definition sent (t : list effect) : list jsval :=
  omap (fun e => match e with ResSend b => Some b | _ => None end) t.

(** The messages given to [postMessageResponse]. *)
Definition posted (t : list effect) : list jsval :=
  omap (fun e => match e with PostMessageResponse d => Some d | _ => None end) t.

(** The calls that go out to the identity provider's client libraries. *)
Definition idp_calls (t : list effect) : list effect :=
  omap (fun e => match e with
                 | PassportAuthenticate _ _ | RequestNewAccessToken _ _ _ => Some e
                 | _ => None
                 end) t.

(** The same request with one cookie, or one query parameter, left out. *)
Definition without_cookie (name : string) (req : request) : request :=
  {| cookies := delete name (cookies req); query := query req;
     headers := headers req |}.

Definition without_query (name : string) (req : request) : request :=
  {| cookies := cookies req; query := delete name (query req);
     headers := headers req |}.

(** Modelled from the spec: [ensuresXRequestedWith] of [utils] is not among
    the sources; section 6 asks for the [X-Requested-With] header to be
    present and to match an expected value.  The handlers above take the
    check as a parameter; this instance serves the concrete runs below. *)
Definition ensuresXRequestedWith_spec (expected : string) (req : request) : bool :=
  bool_decide (headers req !! "x-requested-with" = Some expected).

(** ** A concrete deployment, after the scenarios of the specification *)

Module Demo.

Definition config : AuthProviderConfig := {| provider := "demo"; options := ∅ |}.

Definition entropy (n : nat) : byte :=
  default x00 (Byte.of_nat ((n * 37 + 5) mod 256)).

Definition trusted : request -> bool := ensuresXRequestedWith_spec "XMLHttpRequest".

Definition ajax : gmap string string := {[ "x-requested-with" := "XMLHttpRequest" ]}.

(** [GET /auth/demo/start?scope=openid profile] and [GET /auth/demo/start]. *)
Definition start_request : request :=
  {| cookies := ∅; query := {[ "scope" := JStr "openid profile" ]}; headers := ∅ |}.
Definition start_without_scope : request :=
  {| cookies := ∅; query := ∅; headers := ∅ |}.

(** Callbacks: matching nonces, unequal nonces, an empty nonce cookie, no
    nonce cookie. *)
Definition callback_request : request :=
  {| cookies := {[ "demo-nonce" := JStr "X" ]};
     query := {[ "state" := JStr "X" ]}; headers := ∅ |}.
Definition callback_mismatch : request :=
  {| cookies := {[ "demo-nonce" := JStr "X" ]};
     query := {[ "state" := JStr "Y" ]}; headers := ∅ |}.
Definition callback_empty_cookie : request :=
  {| cookies := {[ "demo-nonce" := JStr "" ]};
     query := {[ "state" := JStr "Y" ]}; headers := ∅ |}.
Definition callback_empty_state : request :=
  {| cookies := {[ "demo-nonce" := JStr "X" ]};
     query := {[ "state" := JStr "" ]}; headers := ∅ |}.
Definition callback_no_cookie : request :=
  {| cookies := ∅; query := {[ "state" := JStr "Y" ]}; headers := ∅ |}.

(** Session results as the strategy builds them, with and without a
    refresh token. *)
Definition session (refreshToken : jsval) : gmap string jsval :=
  <["profile" := JObj {[ "id" := JStr "u1" ]}]>
    (<["idToken" := JStr "id1"]>
       (<["accessToken" := JStr "at1"]>
          (<["refreshToken" := refreshToken]>
             (<["scope" := JStr "openid profile"]>
                (<["expiresInSeconds" := JNum (safe 3599)]> ∅))))).

Definition exchange_ok (_ : request) : option (jsval * jsval) :=
  Some (JUndefined, JObj (session (JStr "rt1"))).
Definition exchange_without_refresh_token (_ : request) : option (jsval * jsval) :=
  Some (JUndefined, JObj (session JUndefined)).

(** Refresh and logout requests. *)
Definition refresh_request : request :=
  {| cookies := {[ "demo-refresh-token" := JStr "rt1" ]};
     query := ∅; headers := ajax |}.
Definition refresh_without_cookie : request :=
  {| cookies := ∅; query := ∅; headers := ajax |}.
Definition refresh_untrusted : request :=
  {| cookies := {[ "demo-refresh-token" := JStr "rt1" ]};
     query := ∅; headers := ∅ |}.

Definition token_response : gmap string jsval :=
  <["access_token" := JStr "at2"]>
    (<["id_token" := JStr "id2"]>
       (<["expires_in" := JNum (safe 3599)]>
          (<["scope" := JStr "openid profile"]> ∅))).

Definition grant_ok (_ : string) (_ : jsval) (_ : gmap string jsval)
    : option (jsval * jsval * jsval * jsval) :=
  Some (JNull, JStr "at2", JStr "rt2", JObj token_response).
Definition grant_failed (_ : string) (_ : jsval) (_ : gmap string jsval)
    : option (jsval * jsval * jsval * jsval) :=
  Some (JObj {[ "statusCode" := JNum (safe 400) ]},
        JUndefined, JUndefined, JUndefined).

End Demo.

(** Further requests and library answers for the demo deployment. *)
Module Samples.

(** [GET /auth/demo/start?scope=openid&scope=profile]. *)
Definition start_repeated_scope : request :=
  {| cookies := ∅;
     query := {[ "scope" := JArr [JStr "openid"; JStr "profile"] ]};
     headers := ∅ |}.

(** [GET /auth/demo/handler/frame?state=X&state=X] with the cookie [X]. *)
Definition callback_repeated_state : request :=
  {| cookies := {[ "demo-nonce" := JStr "X" ]};
     query := {[ "state" := JArr [JStr "X"; JStr "X"] ]}; headers := ∅ |}.

(** The exchange fails, although a user object comes along. *)
Definition exchange_failed (_ : request) : option (jsval * jsval) :=
  Some (JError "TokenError" "Bad Request",
        JObj (Demo.session (JStr "rt1"))).

(** Passport reports a failed authentication: no error, [false] for the
    user. *)
Definition exchange_denied (_ : request) : option (jsval * jsval) :=
  Some (JNull, JBool false).

Definition exchange_no_user (_ : request) : option (jsval * jsval) :=
  Some (JNull, JUndefined).

(** The exchange hands over what the verify callback of the strategy
    builds from the provider's answer. *)
Definition verified (refreshToken : jsval) : outcome (jsval * jsval) * state :=
  strategy_verify (JStr "at1") refreshToken (JObj Demo.token_response)
    (JObj {[ "id" := JStr "u1" ]}) initial.

Definition exchange_verified (refreshToken : jsval) (_ : request)
    : option (jsval * jsval) :=
  match verified refreshToken with
  | (Returned r, _) => Some r
  | (Thrown _, _) => None
  end.

(** [POST /auth/demo/refresh?scope=openid] and a refresh whose cookie is
    empty. *)
Definition refresh_with_scope : request :=
  {| cookies := {[ "demo-refresh-token" := JStr "rt1" ]};
     query := {[ "scope" := JStr "openid" ]}; headers := Demo.ajax |}.
Definition refresh_empty_cookie : request :=
  {| cookies := {[ "demo-refresh-token" := JStr "" ]};
     query := ∅; headers := Demo.ajax |}.

(** [GET /auth/demo/start?scope[toString]=x] and the same query on
    [/auth/demo/refresh]: the query parser builds the object
    [{ toString: 'x' }]. *)
Definition start_unprintable_scope : request :=
  {| cookies := ∅;
     query := {[ "scope" := JObj {[ "toString" := JStr "x" ]} ]};
     headers := ∅ |}.
Definition refresh_unprintable_scope : request :=
  {| cookies := {[ "demo-refresh-token" := JStr "rt1" ]};
     query := {[ "scope" := JObj {[ "toString" := JStr "x" ]} ]};
     headers := Demo.ajax |}.

(** A grant that reports an access token without a token response. *)
Definition grant_without_results
    (_ : string) (_ : jsval) (_ : gmap string jsval)
    : option (jsval * jsval * jsval * jsval) :=
  Some (JNull, JStr "at2", JUndefined, JUndefined).

(** The redirect back after scenario A: the cookie and the [state] that
    [start] gave out. *)
Definition callback_after_start : request :=
  {| cookies := {[ "demo-nonce" := JStr "BSpPdJm+4wgtUnecweYLMA==" ]};
     query := {[ "state" := JStr "BSpPdJm+4wgtUnecweYLMA==" ]};
     headers := ∅ |}.

End Samples.

(** ** Values and encodings *)

(** A safe integer is its value: the bound has one proof only. *)
Lemma safe_integer_eq (x y : safe_integer) : integer x = integer y -> x = y.
Proof.
  destruct x as [x Hx], y as [y Hy]. cbn. intros ->. f_equal.
  apply proof_irrel.
Qed.

Lemma strict_eq_eq (a b : jsval) : strict_eq a b = true -> a = b.
Proof.
  destruct a, b; simpl; try discriminate; try reflexivity; intros H.
  - apply Bool.eqb_prop in H. congruence.
  - apply Z.eqb_eq in H. f_equal. by apply safe_integer_eq.
  - apply String.eqb_eq in H. congruence.
Qed.

Lemma strict_eq_neq (a b : jsval) : a <> b -> strict_eq a b = false.
Proof.
  intros Hne. destruct (strict_eq a b) eqn:E; [|reflexivity].
  exfalso. apply Hne. by apply strict_eq_eq.
Qed.

Lemma truthy_undefined (o : gmap string jsval) (k : string) :
  o !! k = None -> truthy (prop o k) = false.
Proof. intros H. unfold prop. by rewrite H. Qed.

Lemma truthy_JStr (s : string) : truthy (JStr s) = false <-> s = "".
Proof.
  simpl. destruct (String.eqb_spec s ""); simpl; split; congruence.
Qed.

(** *** Base64 *)

(** The test vectors of RFC 4648, section 10. *)
Example base64_rfc4648 :
  map toString_base64
    [[]; [x66]; [x66; x6f]; [x66; x6f; x6f]; [x66; x6f; x6f; x62];
     [x66; x6f; x6f; x62; x61]; [x66; x6f; x6f; x62; x61; x72]]
  = [""; "Zg=="; "Zm8="; "Zm9v"; "Zm9vYg=="; "Zm9vYmE="; "Zm9vYmFy"].
Proof. reflexivity. Qed.

(** Induction over a list in steps of three, as [base64_chars] recurses. *)
Lemma list_ind3 {A : Type} (P : list A -> Prop) :
  P [] -> (forall a, P [a]) -> (forall a b, P [a; b]) ->
  (forall a b c l, P l -> P (a :: b :: c :: l)) ->
  forall l, P l.
Proof.
  intros H0 H1 H2 H3 l.
  assert (H : P l /\ (forall a, P (a :: l)) /\ (forall a b, P (a :: b :: l))).
  { induction l as [|x l (IH0 & IH1 & IH2)]; [by auto|].
    split; [exact (IH1 x)|]. split; [exact (fun a => IH2 a x)|].
    intros a b. by apply H3. }
  apply H.
Qed.

Lemma base64_chars_length (bytes : list byte) :
  length (base64_chars bytes) = (4 * ((length bytes + 2) / 3))%nat.
Proof.
  induction bytes as [|a|a b|a b c l IH] using list_ind3; try reflexivity.
  cbn [base64_chars length]. rewrite IH.
  replace (S (S (S (length l))) + 2)%nat with (length l + 2 + 1 * 3)%nat by lia.
  rewrite Nat.div_add by lia. lia.
Qed.

(** The four digits of a group give its bytes back. *)
Ltac bits :=
  change 63 with (Z.ones 6); change 255 with (Z.ones 8);
  Z.bitblast; repeat Z.bitblast_core.

Section Sextets.

Variables a b c : Z.
Hypothesis Ha : a = Z.land a 255.
Hypothesis Hb : b = Z.land b 255.
Hypothesis Hc : c = Z.land c 255.

Let first (n : Z) : Z :=
  Z.lor (Z.shiftl (Z.land (Z.shiftr n 18) 63) 2)
        (Z.shiftr (Z.land (Z.shiftr n 12) 63) 4).
Let second (n : Z) : Z :=
  Z.lor (Z.shiftl (Z.land (Z.shiftr n 12) 63) 4)
        (Z.shiftr (Z.land (Z.shiftr n 6) 63) 2).
Let third (n : Z) : Z :=
  Z.lor (Z.shiftl (Z.land (Z.shiftr n 6) 63) 6) (Z.land n 63).

Lemma group1_first :
  Z.land (first (Z.shiftl a 16)) 255 = Z.land a 255.
Proof. unfold first. rewrite Ha. bits. Qed.

Lemma group2_first :
  Z.land (first (Z.lor (Z.shiftl a 16) (Z.shiftl b 8))) 255 = Z.land a 255.
Proof. unfold first. rewrite Ha, Hb. bits. Qed.

Lemma group2_second :
  Z.land (second (Z.lor (Z.shiftl a 16) (Z.shiftl b 8))) 255 = Z.land b 255.
Proof. unfold second. rewrite Ha, Hb. bits. Qed.

Lemma group3_first :
  Z.land (first (Z.lor (Z.lor (Z.shiftl a 16) (Z.shiftl b 8)) c)) 255
  = Z.land a 255.
Proof. unfold first. rewrite Ha, Hb, Hc. bits. Qed.

Lemma group3_second :
  Z.land (second (Z.lor (Z.lor (Z.shiftl a 16) (Z.shiftl b 8)) c)) 255
  = Z.land b 255.
Proof. unfold second. rewrite Ha, Hb, Hc. bits. Qed.

Lemma group3_third :
  Z.land (third (Z.lor (Z.lor (Z.shiftl a 16) (Z.shiftl b 8)) c)) 255
  = Z.land c 255.
Proof. unfold third. rewrite Ha, Hb, Hc. bits. Qed.

End Sextets.

Lemma byte_value_land (b : byte) : byte_value b = Z.land (byte_value b) 255.
Proof.
  unfold byte_value. change 255 with (Z.ones 8).
  rewrite Z.land_ones by lia. symmetry. apply Z.mod_small.
  pose proof (Byte.to_N_bounded b). lia.
Qed.

Lemma byte_of_value (b : byte) (z : Z) :
  Z.land z 255 = Z.land (byte_value b) 255 -> byte_of z = b.
Proof.
  intros H. unfold byte_of. rewrite H, <- byte_value_land.
  unfold byte_value. by rewrite N2Z.id, Byte.of_to_N.
Qed.

Lemma base64_value_digit (n : Z) :
  base64_value (base64_digit n) = Some (Z.land n 63).
Proof.
  unfold base64_digit.
  assert (H : 0 <= Z.land n 63 < 64).
  { change 63 with (Z.ones 6). rewrite Z.land_ones by lia.
    apply Z.mod_pos_bound. lia. }
  rewrite <- (Z2Nat.id (Z.land n 63)) at 2 by lia.
  assert (Hk : (Z.to_nat (Z.land n 63) < 64)%nat) by lia.
  revert Hk. generalize (Z.to_nat (Z.land n 63)). intros k Hk.
  do 64 (destruct k as [|k]; [reflexivity|]). lia.
Qed.

(** The padding character is no digit. *)
Lemma base64_value_pad : base64_value "="%char = None.
Proof. reflexivity. Qed.

Lemma base64_bytes_chars (bytes : list byte) :
  base64_bytes (base64_chars bytes) = Some bytes.
Proof.
  induction bytes as [|a|a b|a b c l IH] using list_ind3.
  - reflexivity.
  - cbn [base64_chars base64_bytes]. rewrite !base64_value_digit.
    cbn [mbind option_bind]. rewrite base64_value_pad.
    change (Ascii.eqb "=" "=") with true. cbn [andb].
    f_equal. f_equal. apply byte_of_value. apply group1_first, byte_value_land.
  - cbn [base64_chars base64_bytes]. rewrite !base64_value_digit.
    cbn [mbind option_bind]. rewrite base64_value_pad.
    change (Ascii.eqb "=" "=") with true. cbv iota.
    f_equal. f_equal; [|f_equal]; apply byte_of_value.
    + apply group2_first; apply byte_value_land.
    + apply group2_second; apply byte_value_land.
  - cbn [base64_chars base64_bytes]. rewrite !base64_value_digit.
    cbn [mbind option_bind]. rewrite IH. cbn [mbind option_bind].
    f_equal. f_equal; [|f_equal; [|f_equal]]; apply byte_of_value.
    + apply group3_first; apply byte_value_land.
    + apply group3_second; apply byte_value_land.
    + apply group3_third; apply byte_value_land.
Qed.

(** Two byte strings with the same base64 text are equal. *)
Lemma toString_base64_inj (x y : list byte) :
  toString_base64 x = toString_base64 y -> x = y.
Proof.
  unfold toString_base64. intros H.
  apply (f_equal list_ascii_of_string) in H.
  rewrite !list_ascii_of_string_of_list_ascii in H.
  apply (f_equal base64_bytes) in H. rewrite !base64_bytes_chars in H.
  by injection H.
Qed.

Lemma length_string_of_list_ascii (l : list ascii) :
  String.length (string_of_list_ascii l) = length l.
Proof. induction l as [|c l IH]; [done|]. cbn. by rewrite IH. Qed.

(** Sixteen bytes print as twenty-four characters. *)
Lemma toString_base64_length (bytes : list byte) :
  String.length (toString_base64 bytes) = (4 * ((length bytes + 2) / 3))%nat.
Proof.
  unfold toString_base64.
  by rewrite length_string_of_list_ascii, base64_chars_length.
Qed.

(** *** Constants *)

(** The product that defines [THOUSAND_DAYS_MS] is exact in double
    arithmetic: it stays below 2^53. *)
Lemma THOUSAND_DAYS_MS_value :
  THOUSAND_DAYS_MS = 86400000000 /\ THOUSAND_DAYS_MS < 2 ^ 53.
Proof. split; reflexivity. Qed.

Lemma TEN_MINUTES_MS_value : TEN_MINUTES_MS = 600000.
Proof. reflexivity. Qed.

Lemma randomBytes_length (entropy : nat -> byte) (n : nat) (s : state) :
  exists bytes,
    randomBytes entropy n s
      = (Returned bytes, {| drawn := (drawn s + n)%nat; log := log s |})
    /\ length bytes = n.
Proof.
  eexists. split; [reflexivity|]. by rewrite length_map, length_seq.
Qed.

(** ** Running a handler *)

Lemma run_bind {A B : Type} (m : handler A) (k : A -> handler B) (s : state) :
  (m ≫= k) s
  = match m s with
    | (Returned a, s') => k a s'
    | (Thrown e, s') => (Thrown e, s')
    end.
Proof. reflexivity. Qed.

Lemma run_ret {A : Type} (a : A) (s : state) :
  (mret a : handler A) s = (Returned a, s).
Proof. reflexivity. Qed.

Lemma run_emit (e : effect) (s : state) :
  emit e s = (Returned tt, {| drawn := drawn s; log := log s ++ [e] |}).
Proof. reflexivity. Qed.

Lemma run_throw {A : Type} (e : exn) (s : state) :
  (throw e : handler A) s = (Thrown e, s).
Proof. reflexivity. Qed.

Create Rewrite HintDb run.
#[local] Hint Rewrite @run_bind @run_ret @run_emit @run_throw : run.

(** Push the state through the binds of a handler that is applied to it. *)
Ltac run := repeat (autorewrite with run; cbn [drawn log app fst snd]).
Tactic Notation "run" "in" hyp(H) :=
  repeat (autorewrite with run in H; cbn [drawn log app fst snd] in H).

(** ** Properties of the handlers *)

Section Properties.

Variable providerConfig : AuthProviderConfig.
Variable entropy : nat -> byte.
Variable ensuresXRequestedWith : request -> bool.
Variable exchange : request -> option (jsval * jsval).
Variable grant :
  string -> jsval -> gmap string jsval ->
  option (jsval * jsval * jsval * jsval).

Let providerId : string := provider providerConfig.

(** The cookie options of the three kinds, as the handlers build them. *)
Let nonceOptions : CookieOptions :=
  {| maxAge := 600000; secure := false; sameSite := "none";
     domain := "localhost"; path := "/auth/" +:+ providerId +:+ "/handler";
     httpOnly := true |}.
Let refreshTokenOptions (age : Z) : CookieOptions :=
  {| maxAge := age; secure := false; sameSite := "none";
     domain := "localhost"; path := "/auth/" +:+ providerId;
     httpOnly := true |}.

Lemma logout_guard (req : request) :
  ensuresXRequestedWith req = false ->
  logout providerConfig ensuresXRequestedWith req initial
  = (Returned tt,
     {| drawn := 0;
        log := [ResStatus 401;
                ResSend (JStr "Invalid X-Requested-With header")] |}).
Proof. intros H. unfold logout. by rewrite H. Qed.

Lemma refresh_guard (req : request) :
  ensuresXRequestedWith req = false ->
  refresh providerConfig ensuresXRequestedWith grant req initial
  = (Returned tt,
     {| drawn := 0;
        log := [ResStatus 401;
                ResSend (JStr "Invalid X-Requested-With header")] |}).
Proof. intros H. unfold refresh. by rewrite H. Qed.

(** C4. A refresh or logout request that fails the [X-Requested-With]
    check is answered with 401 and the text
    [Invalid X-Requested-With header], and that is all the handler
    does: no cookie is read, none is written, the identity provider is
    not called. *)
Theorem untrusted_request_rejected (req : request) :
  ensuresXRequestedWith req = false ->
  let r := refresh providerConfig ensuresXRequestedWith grant req in
  let l := logout providerConfig ensuresXRequestedWith req in
  (trace r = [ResStatus 401; ResSend (JStr "Invalid X-Requested-With header")]
   /\ result r = Returned tt
   /\ cookies_read (trace r) = [] /\ cookies_set (trace r) = []
   /\ idp_calls (trace r) = [])
  /\
  (trace l = [ResStatus 401; ResSend (JStr "Invalid X-Requested-With header")]
   /\ result l = Returned tt
   /\ cookies_read (trace l) = [] /\ cookies_set (trace l) = []
   /\ idp_calls (trace l) = []).
Proof.
  intros H r l. unfold trace, result, r, l.
  rewrite (refresh_guard req H), (logout_guard req H). simpl.
  repeat split.
Qed.

(** *** The callback: nonce check *)

Lemma frameHandler_missing_nonce (req : request) :
  truthy (prop (cookies req) (providerId +:+ "-nonce")) = false
  \/ truthy (prop (query req) "state") = false ->
  frameHandler providerConfig exchange req initial
  = (Returned tt,
     {| drawn := 0;
        log := [ReadCookie (providerId +:+ "-nonce"); ResStatus 401;
                ResSend (JStr "Missing nonce")] |}).
Proof.
  intros H. unfold frameHandler, req_cookie, providerId in *. run.
  destruct H as [-> | ->]; cbn [negb orb]; [by run|].
  rewrite orb_true_r. by run.
Qed.

Lemma frameHandler_invalid_nonce (req : request) :
  truthy (prop (cookies req) (providerId +:+ "-nonce")) = true ->
  truthy (prop (query req) "state") = true ->
  strict_eq (prop (cookies req) (providerId +:+ "-nonce"))
    (prop (query req) "state") = false ->
  frameHandler providerConfig exchange req initial
  = (Returned tt,
     {| drawn := 0;
        log := [ReadCookie (providerId +:+ "-nonce"); ResStatus 401;
                ResSend (JStr "Invalid nonce")] |}).
Proof.
  intros Hc Hs Hne. unfold frameHandler, req_cookie, providerId in *. run.
  rewrite Hc, Hs, Hne. cbn [negb orb]. by run.
Qed.

Lemma frameHandler_valid_nonce (req : request) :
  truthy (prop (cookies req) (providerId +:+ "-nonce")) = true ->
  strict_eq (prop (cookies req) (providerId +:+ "-nonce"))
    (prop (query req) "state") = true ->
  frameHandler providerConfig exchange req initial
  = let s := {| drawn := 0;
                log := [ReadCookie (providerId +:+ "-nonce");
                        PassportAuthenticate "google" AuthCallback] |} in
    match exchange req with
    | Some (err, user) => frameHandler_callback providerConfig err user s
    | None => (Returned tt, s)
    end.
Proof.
  intros Hc Heq. unfold frameHandler, req_cookie, providerId in *. run.
  assert (Hs : truthy (prop (query req) "state") = true).
  { by rewrite <- (strict_eq_eq _ _ Heq). }
  rewrite Hc, Hs, Heq. cbn [negb orb]. run.
  by destruct (exchange req) as [[err user]|].
Qed.

(** *** The callback: what passport's answer leads to *)

Lemma member_truthy (user : jsval) (k : string) :
  truthy (member user k) = true -> exists session, user = JObj session.
Proof. destruct user; try discriminate. eauto. Qed.

Lemma frameHandler_callback_error
    (err user : jsval) (text : string) (s : state) :
  truthy err = true ->
  toString err = Some text ->
  frameHandler_callback providerConfig err user s
  = (Returned tt,
     {| drawn := drawn s;
        log := log s ++
          [PostMessageResponse
             (JObj (<["type" := JStr "auth-result"]>
                      (<["error" :=
                           new_Error ("Google auth failed, " +:+ text)]>
                         ∅)))] |}).
Proof.
  intros H Htext. unfold frameHandler_callback, converted.
  rewrite H, Htext. by run.
Qed.

(** An error that cannot be converted to a string makes the template
    literal throw. *)
Lemma frameHandler_callback_error_throws (err user : jsval) (s : state) :
  truthy err = true ->
  toString err = None ->
  frameHandler_callback providerConfig err user s = (Thrown TypeError, s).
Proof.
  intros H Htext. unfold frameHandler_callback, converted.
  rewrite H, Htext. by run.
Qed.

(** Without error and without user object the destructuring throws. *)
Lemma frameHandler_callback_nullish (err user : jsval) (s : state) :
  truthy err = false ->
  user = JUndefined \/ user = JNull ->
  frameHandler_callback providerConfig err user s = (Thrown TypeError, s).
Proof.
  intros He Hu. unfold frameHandler_callback, get. rewrite He.
  by destruct Hu as [-> | ->].
Qed.

(** A user without refresh token: a session whose [refreshToken] is absent
    or empty, and also passport's [false] after a denied consent. *)
Lemma frameHandler_callback_missing (err user : jsval) (s : state) :
  truthy err = false ->
  user <> JUndefined -> user <> JNull ->
  truthy (member user "refreshToken") = false ->
  frameHandler_callback providerConfig err user s
  = (Returned tt,
     {| drawn := drawn s;
        log := log s ++
          [PostMessageResponse
             (JObj (<["type" := JStr "auth-result"]>
                      (<["error" := new_Error "Missing refresh token"]>
                         ∅)))] |}).
Proof.
  intros He Hu Hn Hrt. unfold frameHandler_callback, get. rewrite He.
  destruct user; try done; run; rewrite Hrt; cbn [negb]; by run.
Qed.

Lemma frameHandler_callback_success
    (err : jsval) (session : gmap string jsval) (s : state) :
  truthy err = false ->
  truthy (prop session "refreshToken") = true ->
  frameHandler_callback providerConfig err (JObj session) s
  = (Returned tt,
     {| drawn := drawn s;
        log := log s ++
          [ResCookie (providerId +:+ "-refresh-token")
             (prop session "refreshToken") (refreshTokenOptions 86400000000);
           PostMessageResponse
             (JObj (<["type" := JStr "auth-result"]>
                      (<["payload" := JObj (delete "refreshToken" session)]>
                         ∅)))] |}).
Proof.
  intros He Hrt. unfold frameHandler_callback, get, member. rewrite He. run.
  rewrite Hrt. cbn [negb]. run. by rewrite <- app_assoc.
Qed.

(** Every run of the callback handler is one of five: the two rejections
    of the nonce check; passport called and nothing after (no callback,
    or a callback that throws); an error posted to the browser; the
    refresh-token cookie set and the redacted session posted. *)
Lemma frameHandler_cases (req : request) :
  let name := providerId +:+ "-nonce" in
  let t := trace (frameHandler providerConfig exchange req) in
  let begun := [ReadCookie name; PassportAuthenticate "google" AuthCallback] in
  t = [ReadCookie name; ResStatus 401; ResSend (JStr "Missing nonce")]
  \/ t = [ReadCookie name; ResStatus 401; ResSend (JStr "Invalid nonce")]
  \/ t = begun
  \/ (exists message,
        t = (begun ++
             [PostMessageResponse
                (JObj (<["type" := JStr "auth-result"]>
                         (<["error" := new_Error message]> ∅)))])%list)
  \/ (exists err session,
        exchange req = Some (err, JObj session)
        /\ truthy err = false
        /\ truthy (prop session "refreshToken") = true
        /\ t = (begun ++
                [ResCookie (providerId +:+ "-refresh-token")
                   (prop session "refreshToken")
                   (refreshTokenOptions 86400000000);
                 PostMessageResponse
                   (JObj (<["type" := JStr "auth-result"]>
                            (<["payload" :=
                                 JObj (delete "refreshToken" session)]> ∅)))])%list).
Proof.
  intros name t begun. unfold t, trace.
  destruct (truthy (prop (cookies req) name)) eqn:Hc;
    [|left; by rewrite frameHandler_missing_nonce by auto].
  destruct (truthy (prop (query req) "state")) eqn:Hs;
    [|left; by rewrite frameHandler_missing_nonce by auto].
  right.
  destruct (strict_eq (prop (cookies req) name) (prop (query req) "state"))
    eqn:Heq;
    [|left; by rewrite frameHandler_invalid_nonce by auto].
  right. rewrite (frameHandler_valid_nonce req Hc Heq). cbn zeta.
  destruct (exchange req) as [[err user]|]; [|by left].
  destruct (truthy err) eqn:He.
  { destruct (toString err) as [text|] eqn:Htext.
    - right; left. eexists.
      by rewrite (frameHandler_callback_error _ _ text) by done.
    - left. by rewrite frameHandler_callback_error_throws by done. }
  destruct (truthy (member user "refreshToken")) eqn:Ht.
  - destruct (member_truthy _ _ Ht) as [session ->].
    right; right. exists err, session.
    by rewrite frameHandler_callback_success by done.
  - assert (Hnullish : (user = JUndefined \/ user = JNull)
                       \/ (user <> JUndefined /\ user <> JNull)).
    { destruct user; auto; right; split; discriminate. }
    destruct Hnullish as [Hu | [Hu Hn]].
    + left. by rewrite frameHandler_callback_nullish by done.
    + right; left. eexists.
      by rewrite frameHandler_callback_missing by done.
Qed.

(** The cookies of a callback: none, or the refresh token of a session
    that the exchange returned without error. *)
Lemma frameHandler_cookies (req : request) :
  let t := trace (frameHandler providerConfig exchange req) in
  cookies_set t = []
  \/ exists err session,
       exchange req = Some (err, JObj session)
       /\ truthy err = false
       /\ truthy (prop session "refreshToken") = true
       /\ cookies_set t
          = [(providerId +:+ "-refresh-token", prop session "refreshToken",
              refreshTokenOptions 86400000000)].
Proof.
  destruct (frameHandler_cases req)
    as [-> | [-> | [-> | [[message ->]
                         | (err & session & Hex & He & Ht & ->)]]]];
    try (by left).
  right. by exists err, session.
Qed.

(** C3, as amended. In the callback, a nonce cookie or a [state] parameter
    that is missing or empty (falsy) is answered with 401 [Missing nonce];
    when both are present and non-empty but not strictly equal, the
    answer is 401 [Invalid nonce].  In either case the token exchange is
    not invoked and no cookie is set. *)
Theorem nonce_check_rejects (req : request) :
  let name := providerId +:+ "-nonce" in
  let cookieNonce := prop (cookies req) name in
  let stateNonce := prop (query req) "state" in
  let h := frameHandler providerConfig exchange req in
  (truthy cookieNonce = false \/ truthy stateNonce = false ->
   trace h = [ReadCookie name; ResStatus 401; ResSend (JStr "Missing nonce")])
  /\
  (truthy cookieNonce = true -> truthy stateNonce = true ->
   strict_eq cookieNonce stateNonce = false ->
   trace h = [ReadCookie name; ResStatus 401; ResSend (JStr "Invalid nonce")])
  /\
  (truthy cookieNonce = false \/ truthy stateNonce = false
   \/ strict_eq cookieNonce stateNonce = false ->
   statusCode (trace h) = 401 /\ result h = Returned tt
   /\ idp_calls (trace h) = [] /\ cookies_set (trace h) = []).
Proof.
  intros name cookieNonce stateNonce h.
  assert (Hmissing : truthy cookieNonce = false \/ truthy stateNonce = false ->
            h initial = (Returned tt,
              {| drawn := 0;
                 log := [ReadCookie name; ResStatus 401;
                         ResSend (JStr "Missing nonce")] |})).
  { apply frameHandler_missing_nonce. }
  assert (Hinvalid : truthy cookieNonce = true -> truthy stateNonce = true ->
            strict_eq cookieNonce stateNonce = false ->
            h initial = (Returned tt,
              {| drawn := 0;
                 log := [ReadCookie name; ResStatus 401;
                         ResSend (JStr "Invalid nonce")] |})).
  { apply frameHandler_invalid_nonce. }
  unfold trace, result. split; [|split].
  - intros H. by rewrite (Hmissing H).
  - intros Hc Hs Hne. by rewrite (Hinvalid Hc Hs Hne).
  - intros H.
    destruct (truthy cookieNonce) eqn:Hc; [|by rewrite Hmissing; auto].
    destruct (truthy stateNonce) eqn:Hs; [|by rewrite Hmissing; auto].
    destruct H as [H | [H | H]]; try discriminate.
    by rewrite (Hinvalid eq_refl eq_refl H).
Qed.

(** C10. A nonce cookie or a [state] parameter that is present but is the
    empty string is treated as an absent one: the answer is 401
    [Missing nonce], never [Invalid nonce], and the run is the run of
    the same request without that cookie or parameter. *)
Theorem empty_nonce_is_missing (req : request) :
  let name := providerId +:+ "-nonce" in
  let h := frameHandler providerConfig exchange in
  (cookies req !! name = Some (JStr "") ->
   trace (h req) = [ReadCookie name; ResStatus 401; ResSend (JStr "Missing nonce")]
   /\ sent (trace (h req)) <> [JStr "Invalid nonce"]
   /\ trace (h req) = trace (h (without_cookie name req)))
  /\
  (query req !! "state" = Some (JStr "") ->
   trace (h req) = [ReadCookie name; ResStatus 401; ResSend (JStr "Missing nonce")]
   /\ sent (trace (h req)) <> [JStr "Invalid nonce"]
   /\ trace (h req) = trace (h (without_query "state" req))).
Proof.
  intros name h. unfold trace, h. split; intros Hempty.
  - rewrite (frameHandler_missing_nonce req),
      (frameHandler_missing_nonce (without_cookie name req)).
    + by cbn.
    + left. apply truthy_undefined. cbn. apply lookup_delete_eq.
    + left. unfold prop. fold providerId. fold name. by rewrite Hempty.
  - rewrite (frameHandler_missing_nonce req),
      (frameHandler_missing_nonce (without_query "state" req)).
    + by cbn.
    + right. apply truthy_undefined. cbn. apply lookup_delete_eq.
    + right. unfold prop. by rewrite Hempty.
Qed.

(** C1. No message that the callback posts to the browser has a payload
    with a [refreshToken] field.  When the nonce check has passed, the
    exchange succeeds and the session result holds a refresh token, the
    payload posted is the session with that one field deleted, and the
    same response sets the refresh-token cookie to the raw refresh
    token. *)
Theorem callback_redacts_refresh_token (req : request) :
  let name := providerId +:+ "-nonce" in
  let h := frameHandler providerConfig exchange req in
  (forall fields payload,
     JObj fields ∈ posted (trace h) ->
     fields !! "payload" = Some payload ->
     exists user, payload = JObj user /\ user !! "refreshToken" = None)
  /\
  (forall (err : jsval) (session : gmap string jsval) (refreshToken : jsval),
     truthy (prop (cookies req) name) = true ->
     strict_eq (prop (cookies req) name) (prop (query req) "state") = true ->
     exchange req = Some (err, JObj session) ->
     truthy err = false ->
     session !! "refreshToken" = Some refreshToken ->
     truthy refreshToken = true ->
     let payload := delete "refreshToken" session in
     trace h
     = [ReadCookie name;
        PassportAuthenticate "google" AuthCallback;
        ResCookie (providerId +:+ "-refresh-token") refreshToken
          (refreshTokenOptions 86400000000);
        PostMessageResponse
          (JObj (<["type" := JStr "auth-result"]>
                   (<["payload" := JObj payload]> ∅)))]
     /\ result h = Returned tt
     /\ posted (trace h)
        = [JObj (<["type" := JStr "auth-result"]>
                   (<["payload" := JObj payload]> ∅))]
     /\ payload !! "refreshToken" = None
     /\ (forall k, k <> "refreshToken" -> payload !! k = session !! k)
     /\ cookies_set (trace h)
        = [(providerId +:+ "-refresh-token", refreshToken,
            refreshTokenOptions 86400000000)]).
Proof.
  intros name h. split.
  - intros fields payload Hin Hpayload. unfold h in Hin.
    destruct (frameHandler_cases req)
      as [Ht | [Ht | [Ht | [[message Ht]
                           | (err & session & _ & _ & _ & Ht)]]]];
      rewrite Ht in Hin; cbn in Hin.
    + by apply elem_of_nil in Hin.
    + by apply elem_of_nil in Hin.
    + by apply elem_of_nil in Hin.
    + apply list_elem_of_singleton in Hin. injection Hin as ->.
      by simplify_map_eq.
    + apply list_elem_of_singleton in Hin. injection Hin as ->.
      simplify_map_eq. eexists. split; [reflexivity|].
      apply lookup_delete_eq.
  - intros err session refreshToken Hc Heq Hex He Hrt Ht payload.
    assert (Hp : prop session "refreshToken" = refreshToken).
    { unfold prop. by rewrite Hrt. }
    unfold trace, result, h.
    rewrite (frameHandler_valid_nonce req Hc Heq), Hex. cbn zeta.
    rewrite frameHandler_callback_success by (by rewrite ?Hp).
    rewrite Hp. cbn. repeat split.
    + apply lookup_delete_eq.
    + intros k Hk. by apply lookup_delete_ne.
Qed.

(** C2. The callback sets a cookie only when the exchange returned,
    without error, a session whose refresh token is present; when the
    exchange succeeds and the refresh token is absent (or empty), no
    cookie is set and the error [Missing refresh token] is posted to the
    browser. *)
Theorem refresh_cookie_needs_refresh_token (req : request) :
  let name := providerId +:+ "-nonce" in
  let h := frameHandler providerConfig exchange req in
  (forall n v o, (n, v, o) ∈ cookies_set (trace h) ->
     exists err session,
       exchange req = Some (err, JObj session)
       /\ truthy err = false
       /\ session !! "refreshToken" = Some v /\ truthy v = true
       /\ n = providerId +:+ "-refresh-token")
  /\
  (forall err session,
     truthy (prop (cookies req) name) = true ->
     strict_eq (prop (cookies req) name) (prop (query req) "state") = true ->
     exchange req = Some (err, JObj session) ->
     truthy err = false ->
     truthy (prop session "refreshToken") = false ->
     trace h
     = [ReadCookie name;
        PassportAuthenticate "google" AuthCallback;
        PostMessageResponse
          (JObj (<["type" := JStr "auth-result"]>
                   (<["error" := new_Error "Missing refresh token"]> ∅)))]
     /\ cookies_set (trace h) = []
     /\ result h = Returned tt).
Proof.
  intros name h. split.
  - intros n v o Hin. unfold h in Hin.
    destruct (frameHandler_cookies req)
      as [Hnone | (err & session & Hex & He & Ht & Hset)].
    + rewrite Hnone in Hin. by apply elem_of_nil in Hin.
    + rewrite Hset in Hin.
      apply list_elem_of_singleton in Hin. injection Hin as -> -> ->.
      exists err, session. repeat split; try done.
      unfold prop in *. destruct (session !! "refreshToken"); [done|].
      discriminate.
  - intros err session Hc Heq Hex He Ht. unfold trace, result, h.
    rewrite (frameHandler_valid_nonce req Hc Heq), Hex. cbn zeta.
    by rewrite frameHandler_callback_missing.
Qed.

(** *** Start *)

Lemma start_run (req : request) :
  let nonce := toString_base64 (map entropy (seq 0 16)) in
  let cookie := ResCookie (providerId +:+ "-nonce") (JStr nonce) nonceOptions in
  start providerConfig entropy req initial
  = match scope_of req with
    | None => (Thrown TypeError, {| drawn := 16; log := [cookie] |})
    | Some scope =>
        if truthy (JStr scope) then
          (Returned tt,
           {| drawn := 16;
              log := [cookie;
                      PassportAuthenticate "google"
                        (AuthOptions
                           (<["scope" := JStr scope]>
                              (<["accessType" := JStr "offline"]>
                                 (<["prompt" := JStr "consent"]>
                                    (<["state" := JStr nonce]> ∅)))))] |})
        else
          (Thrown (InputError "missing scope parameter"),
           {| drawn := 16; log := [cookie] |})
    end.
Proof.
  intros nonce cookie. unfold start, randomBytes, converted. run.
  destruct (scope_of req) as [scope|]; run; [|done].
  destruct (truthy (JStr scope)); cbn [negb]; by run.
Qed.

(** What [start] does without a scope: the exception comes after the nonce
    cookie has been staged on the response. *)
Lemma start_missing_scope (req : request) :
  scope_of req = Some "" ->
  let h := start providerConfig entropy req in
  result h = Thrown (InputError "missing scope parameter")
  /\ trace h
     = [ResCookie (providerId +:+ "-nonce")
          (JStr (toString_base64 (map entropy (seq 0 16)))) nonceOptions]
  /\ idp_calls (trace h) = [].
Proof.
  intros Hscope h. unfold result, trace, h. rewrite start_run, Hscope.
  by cbn.
Qed.

(** C6. With a scope that prints as a non-empty string, [start] sets the
    nonce cookie to the very value it passes as [state] to
    [passport.authenticate], and that value is the base64 text of 16
    bytes drawn from the random source: 24 characters from which the 16
    bytes can be read back. *)
Theorem start_binds_nonce_to_state (req : request) (scope : string) :
  scope_of req = Some scope -> scope <> "" ->
  let h := start providerConfig entropy req in
  exists (bytes : list byte) (nonce : string) (opts : gmap string jsval),
    bytes = map entropy (seq 0 16)
    /\ (16 <= length bytes)%nat
    /\ nonce = toString_base64 bytes
    /\ String.length nonce = 24%nat
    /\ base64_bytes (list_ascii_of_string nonce) = Some bytes
    /\ trace h
       = [ResCookie (providerId +:+ "-nonce") (JStr nonce) nonceOptions;
          PassportAuthenticate "google" (AuthOptions opts)]
    /\ opts !! "state" = Some (JStr nonce)
    /\ opts !! "scope" = Some (JStr scope)
    /\ cookies_set (trace h)
       = [(providerId +:+ "-nonce", JStr nonce, nonceOptions)]
    /\ result h = Returned tt.
Proof.
  intros Hscope Hne h.
  assert (Ht : truthy (JStr scope) = true).
  { destruct (truthy (JStr scope)) eqn:E; [done|].
    by apply truthy_JStr in E. }
  eexists _, _, _. unfold trace, result, h. rewrite start_run, Hscope, Ht.
  cbn [fst snd log]. split; [reflexivity|].
  split; [by rewrite length_map, length_seq|].
  split; [reflexivity|].
  split; [by rewrite toString_base64_length, length_map, length_seq|].
  split.
  { unfold toString_base64.
    by rewrite list_ascii_of_string_of_list_ascii, base64_bytes_chars. }
  split; [reflexivity|].
  split; [by simplify_map_eq|]. split; [by simplify_map_eq|]. by cbn.
Qed.

(** *** Refresh and logout *)

Lemma refresh_missing_cookie (req : request) :
  ensuresXRequestedWith req = true ->
  truthy (prop (cookies req) (providerId +:+ "-refresh-token")) = false ->
  refresh providerConfig ensuresXRequestedWith grant req initial
  = (Returned tt,
     {| drawn := 0;
        log := [ReadCookie (providerId +:+ "-refresh-token"); ResStatus 401;
                ResSend (JStr "Missing session cookie")] |}).
Proof.
  intros Hx Hc. unfold refresh, req_cookie, providerId in *. rewrite Hx.
  cbn [negb]. run. rewrite Hc. cbn [negb]. by run.
Qed.

Lemma refresh_reaches_grant (req : request) (scope : string) :
  let name := providerId +:+ "-refresh-token" in
  let refreshToken := prop (cookies req) name in
  let requestParams : gmap string jsval :=
    if truthy (JStr scope) then <["scope" := JStr scope]> ∅ else ∅ in
  ensuresXRequestedWith req = true ->
  truthy refreshToken = true ->
  scope_of req = Some scope ->
  refresh providerConfig ensuresXRequestedWith grant req initial
  = let s := {| drawn := 0;
                log := [ReadCookie name;
                        RequestNewAccessToken providerId refreshToken
                          requestParams] |} in
    match grant providerId refreshToken requestParams with
    | Some (err, accessToken, _refreshToken, params) =>
        refresh_callback err accessToken _refreshToken params s
    | None => (Returned tt, s)
    end.
Proof.
  intros name refreshToken requestParams Hx Hc Hscope.
  unfold refresh, req_cookie, converted. rewrite Hx. cbn [negb]. run.
  fold providerId. fold name. fold refreshToken. rewrite Hc. cbn [negb].
  rewrite Hscope. run. fold requestParams.
  by destruct (grant providerId refreshToken requestParams)
    as [[[[err accessToken] _refreshToken] params]|].
Qed.

(** A scope that cannot be converted to a string: [refresh] throws after
    it has read the cookie, before the grant. *)
Lemma refresh_scope_throws (req : request) :
  ensuresXRequestedWith req = true ->
  truthy (prop (cookies req) (providerId +:+ "-refresh-token")) = true ->
  scope_of req = None ->
  refresh providerConfig ensuresXRequestedWith grant req initial
  = (Thrown TypeError,
     {| drawn := 0; log := [ReadCookie (providerId +:+ "-refresh-token")] |}).
Proof.
  intros Hx Hc Hscope. unfold refresh, req_cookie, converted, providerId in *.
  rewrite Hx. cbn [negb]. run. rewrite Hc. cbn [negb]. rewrite Hscope.
  by run.
Qed.

Lemma refresh_callback_failed
    (err accessToken _refreshToken params : jsval) (s : state) :
  truthy err = true \/ truthy accessToken = false ->
  refresh_callback err accessToken _refreshToken params s
  = (Returned tt,
     {| drawn := drawn s;
        log := log s ++
          [ResStatus 401; ResSend (JStr "Failed to refresh access token")] |}).
Proof.
  intros H. unfold refresh_callback.
  assert (Hc : truthy err || negb (truthy accessToken) = true).
  { destruct H as [-> | ->]; [done|]. apply orb_true_r. }
  rewrite Hc. run. by rewrite <- app_assoc.
Qed.

Lemma refresh_callback_ok
    (err accessToken _refreshToken params : jsval) (s : state) :
  truthy err = false -> truthy accessToken = true ->
  params <> JUndefined -> params <> JNull ->
  refresh_callback err accessToken _refreshToken params s
  = (Returned tt,
     {| drawn := drawn s;
        log := log s ++
          [ResSend
             (JObj (<["accessToken" := accessToken]>
                      (<["idToken" := member params "id_token"]>
                         (<["expiresInSeconds" := member params "expires_in"]>
                            (<["scope" := member params "scope"]> ∅)))))] |}).
Proof.
  intros He Ha Hu Hn. unfold refresh_callback, get. rewrite He, Ha.
  cbn [negb orb]. destruct params; try done; by run.
Qed.

(** The callback of [refresh] writes no cookie, whatever it is called
    with. *)
Lemma refresh_callback_cookies
    (err accessToken _refreshToken params : jsval) (s : state) :
  cookies_set
    (log (snd (refresh_callback err accessToken _refreshToken params s)))
  = cookies_set (log s).
Proof.
  unfold refresh_callback, get, cookies_set.
  destruct (truthy err || negb (truthy accessToken)); run.
  - by rewrite <- app_assoc, omap_app, app_nil_r.
  - destruct params; run; by rewrite ?omap_app, ?app_nil_r.
Qed.

Lemma refresh_cookies (req : request) :
  cookies_set (trace (refresh providerConfig ensuresXRequestedWith grant req))
  = [].
Proof.
  unfold trace.
  destruct (ensuresXRequestedWith req) eqn:Hx;
    [|by rewrite refresh_guard].
  destruct (truthy (prop (cookies req) (providerId +:+ "-refresh-token")))
    eqn:Hc; [|by rewrite refresh_missing_cookie].
  destruct (scope_of req) as [scope|] eqn:Hscope;
    [|by rewrite refresh_scope_throws].
  rewrite (refresh_reaches_grant req scope Hx Hc Hscope). cbn zeta.
  destruct (grant _ _ _) as [[[[err accessToken] _refreshToken] params]|];
    [|done].
  by rewrite refresh_callback_cookies.
Qed.

Lemma logout_run (req : request) :
  ensuresXRequestedWith req = true ->
  logout providerConfig ensuresXRequestedWith req initial
  = (Returned tt,
     {| drawn := 0;
        log := [ResCookie (providerId +:+ "-refresh-token") (JStr "")
                  (refreshTokenOptions 0);
                ResSend (JStr "logout!")] |}).
Proof. intros Hx. unfold logout. rewrite Hx. cbn [negb]. by run. Qed.

(** C7. A refresh request that passes the header check and has no
    [{providerId}-refresh-token] cookie is answered with 401
    [Missing session cookie]; the refresh grant is not requested. *)
Theorem refresh_without_session_cookie (req : request) :
  let name := providerId +:+ "-refresh-token" in
  let h := refresh providerConfig ensuresXRequestedWith grant req in
  ensuresXRequestedWith req = true ->
  cookies req !! name = None ->
  trace h = [ReadCookie name; ResStatus 401;
             ResSend (JStr "Missing session cookie")]
  /\ statusCode (trace h) = 401
  /\ idp_calls (trace h) = []
  /\ result h = Returned tt.
Proof.
  intros name h Hx Hnone. unfold trace, result, h.
  rewrite (refresh_missing_cookie req Hx (truthy_undefined _ _ Hnone)).
  by cbn.
Qed.

(** C8. Once [refresh] has requested the grant, which it does after the
    guards when the scope of the request converts to a string, and the
    library calls back:
    with an error or without an access token the answer is 401
    [Failed to refresh access token]; otherwise the answer is a 200 whose
    body has exactly the fields [accessToken], [idToken],
    [expiresInSeconds] and [scope], taken from the new access token and
    the token response, and neither the stored nor the newly issued
    refresh token goes back, in the body or in a cookie. *)
Theorem refresh_grant_outcome
    (req : request) (scope : string)
    (err accessToken _refreshToken params : jsval) :
  let name := providerId +:+ "-refresh-token" in
  let refreshToken := prop (cookies req) name in
  let requestParams : gmap string jsval :=
    if truthy (JStr scope) then <["scope" := JStr scope]> ∅ else ∅ in
  let call := RequestNewAccessToken providerId refreshToken requestParams in
  let h := refresh providerConfig ensuresXRequestedWith grant req in
  ensuresXRequestedWith req = true ->
  truthy refreshToken = true ->
  scope_of req = Some scope ->
  grant providerId refreshToken requestParams
  = Some (err, accessToken, _refreshToken, params) ->
  (truthy err = true \/ truthy accessToken = false ->
   trace h = [ReadCookie name; call; ResStatus 401;
              ResSend (JStr "Failed to refresh access token")]
   /\ statusCode (trace h) = 401
   /\ cookies_set (trace h) = [])
  /\
  (truthy err = false -> truthy accessToken = true ->
   params <> JUndefined -> params <> JNull ->
   let body : gmap string jsval :=
     <["accessToken" := accessToken]>
       (<["idToken" := member params "id_token"]>
          (<["expiresInSeconds" := member params "expires_in"]>
             (<["scope" := member params "scope"]> ∅))) in
   trace h = [ReadCookie name; call; ResSend (JObj body)]
   /\ statusCode (trace h) = 200
   /\ dom body
      = ({["accessToken"; "idToken"; "expiresInSeconds"; "scope"]} : gset string)
   /\ body !! "refreshToken" = None
   /\ cookies_set (trace h) = []).
Proof.
  intros name refreshToken requestParams call h Hx Hc Hscope Hgrant.
  unfold trace, h. rewrite (refresh_reaches_grant req scope Hx Hc Hscope).
  fold name. fold refreshToken. fold requestParams. rewrite Hgrant. cbn zeta.
  split.
  - intros Hfail. by rewrite (refresh_callback_failed _ _ _ _ _ Hfail).
  - intros He Ha Hu Hn.
    rewrite (refresh_callback_ok _ _ _ _ _ He Ha Hu Hn).
    split; [done|]. split; [done|].
    split; [rewrite !dom_insert_L; set_solver|].
    split; [by simplify_map_eq|done].
Qed.

(** After a successful grant whose token response is [undefined] or
    [null], reading its fields throws; the libraries hand over the parsed
    response object whenever they hand over an access token. *)
Lemma refresh_callback_without_results
    (err accessToken _refreshToken params : jsval) (s : state) :
  truthy err = false -> truthy accessToken = true ->
  params = JUndefined \/ params = JNull ->
  refresh_callback err accessToken _refreshToken params s
  = (Thrown TypeError, s).
Proof.
  intros He Ha Hp. unfold refresh_callback, get. rewrite He, Ha.
  by destruct Hp as [-> | ->].
Qed.

(** C9. Cookie attributes are fixed per kind.  Every cookie [start] sets is
    the nonce cookie, with a max-age of 600000 ms and the path
    [/auth/{providerId}/handler]; every cookie the callback sets is the
    refresh-token cookie, with a max-age of 86400000000 ms and the path
    [/auth/{providerId}]; every cookie [logout] sets is the refresh-token
    cookie with the empty value, max-age 0 and that same path; all of
    them are [httpOnly]; [refresh] sets none.  And the cookies are set:
    [start] sets that one nonce cookie in every run, the callback sets
    that one refresh-token cookie when the exchange returns a session
    with a refresh token, and [logout] sets that one clearing cookie
    whenever the header check passes. *)
Theorem cookie_attributes_fixed (req : request) :
  (Forall (fun c : string * jsval * CookieOptions =>
             c.1.1 = providerId +:+ "-nonce"
             /\ maxAge c.2 = 600000
             /\ path c.2 = "/auth/" +:+ providerId +:+ "/handler"
             /\ httpOnly c.2 = true)
     (cookies_set (trace (start providerConfig entropy req)))
   /\ length (cookies_set (trace (start providerConfig entropy req))) = 1%nat
   /\ Forall (fun c : string * jsval * CookieOptions =>
             c.1.1 = providerId +:+ "-refresh-token"
             /\ maxAge c.2 = 86400000000
             /\ path c.2 = "/auth/" +:+ providerId
             /\ httpOnly c.2 = true)
        (cookies_set (trace (frameHandler providerConfig exchange req)))
   /\ Forall (fun c : string * jsval * CookieOptions =>
             c.1.1 = providerId +:+ "-refresh-token"
             /\ c.1.2 = JStr ""
             /\ maxAge c.2 = 0
             /\ path c.2 = "/auth/" +:+ providerId
             /\ httpOnly c.2 = true)
        (cookies_set (trace (logout providerConfig ensuresXRequestedWith req)))
   /\ cookies_set
        (trace (refresh providerConfig ensuresXRequestedWith grant req)) = [])
  /\
  (cookies_set (trace (start providerConfig entropy req))
   = [(providerId +:+ "-nonce",
       JStr (toString_base64 (map entropy (seq 0 16))),
       {| maxAge := 600000; secure := false; sameSite := "none";
          domain := "localhost";
          path := "/auth/" +:+ providerId +:+ "/handler";
          httpOnly := true |})]
   /\ (forall (err : jsval) (session : gmap string jsval) (refreshToken : jsval),
         truthy (prop (cookies req) (providerId +:+ "-nonce")) = true ->
         strict_eq (prop (cookies req) (providerId +:+ "-nonce"))
           (prop (query req) "state") = true ->
         exchange req = Some (err, JObj session) ->
         truthy err = false ->
         session !! "refreshToken" = Some refreshToken ->
         truthy refreshToken = true ->
         cookies_set (trace (frameHandler providerConfig exchange req))
         = [(providerId +:+ "-refresh-token", refreshToken,
             {| maxAge := 86400000000; secure := false; sameSite := "none";
                domain := "localhost"; path := "/auth/" +:+ providerId;
                httpOnly := true |})])
   /\ (ensuresXRequestedWith req = true ->
       cookies_set (trace (logout providerConfig ensuresXRequestedWith req))
       = [(providerId +:+ "-refresh-token", JStr "",
           {| maxAge := 0; secure := false; sameSite := "none";
              domain := "localhost"; path := "/auth/" +:+ providerId;
              httpOnly := true |})])
   /\ (ensuresXRequestedWith req = false ->
       cookies_set (trace (logout providerConfig ensuresXRequestedWith req))
       = [])).
Proof.
  assert (Hstart : cookies_set (trace (start providerConfig entropy req))
                   = [(providerId +:+ "-nonce",
                       JStr (toString_base64 (map entropy (seq 0 16))),
                       nonceOptions)]).
  { unfold trace. rewrite start_run. cbn zeta.
    destruct (scope_of req) as [scope|]; [|done].
    by destruct (truthy (JStr scope)). }
  split; [split; [|split; [|split; [|split]]]|split; [|split; [|split]]].
  - rewrite Hstart. by repeat constructor.
  - by rewrite Hstart.
  - destruct (frameHandler_cookies req)
      as [-> | (err & session & _ & _ & _ & ->)];
      by repeat constructor.
  - unfold trace. destruct (ensuresXRequestedWith req) eqn:Hx.
    + rewrite (logout_run req Hx). cbn. by repeat constructor.
    + rewrite (logout_guard req Hx). cbn. constructor.
  - apply refresh_cookies.
  - exact Hstart.
  - intros err session refreshToken Hc Heq Hex He Hrt Ht.
    assert (Hp : prop session "refreshToken" = refreshToken).
    { unfold prop. by rewrite Hrt. }
    unfold trace. rewrite (frameHandler_valid_nonce req Hc Heq), Hex.
    cbn zeta. rewrite frameHandler_callback_success by (by rewrite ?Hp).
    by rewrite Hp.
  - intros Hx. unfold trace. by rewrite (logout_run req Hx).
  - intros Hx. unfold trace. by rewrite (logout_guard req Hx).
Qed.

End Properties.

(** ** The header check of the specification *)

Lemma ensuresXRequestedWith_spec_false (expected : string) (req : request) :
  ensuresXRequestedWith_spec expected req = false
  <-> headers req !! "x-requested-with" <> Some expected.
Proof. unfold ensuresXRequestedWith_spec. apply bool_decide_eq_false. Qed.

(** With that check, a request without the header, or with another value
    in it, gets the 401 of [refresh] and of [logout]. *)
Lemma wrong_header_rejected
    (providerConfig : AuthProviderConfig)
    (grant : string -> jsval -> gmap string jsval ->
             option (jsval * jsval * jsval * jsval))
    (expected : string) (req : request) :
  headers req !! "x-requested-with" <> Some expected ->
  let check := ensuresXRequestedWith_spec expected in
  trace (refresh providerConfig check grant req)
  = [ResStatus 401; ResSend (JStr "Invalid X-Requested-With header")]
  /\ trace (logout providerConfig check req)
     = [ResStatus 401; ResSend (JStr "Invalid X-Requested-With header")].
Proof.
  intros H check. apply ensuresXRequestedWith_spec_false in H.
  unfold trace. by rewrite refresh_guard, logout_guard.
Qed.

(** ** The strategy *)

(** The session result that the verify callback builds always has a
    [refreshToken] field: it holds [undefined] when the provider sent no
    refresh token. *)
Lemma strategy_verify_session
    (accessToken refreshToken profile : jsval) (params : gmap string jsval)
    (s : state) :
  exists session,
    strategy_verify accessToken refreshToken (JObj params) profile s
    = (Returned (JUndefined, JObj session), s)
    /\ session !! "refreshToken" = Some refreshToken
    /\ session !! "accessToken" = Some accessToken
    /\ session !! "idToken" = Some (prop params "id_token").
Proof.
  eexists. unfold strategy_verify, get. run.
  split; [reflexivity|]. by simplify_map_eq.
Qed.

(** ** The scenarios of the specification, run on the demo deployment *)

(** Scenario A: [start] with a scope. *)
Example scenario_start :
  trace (start Demo.config Demo.entropy Demo.start_request)
  = [ResCookie "demo-nonce" (JStr "BSpPdJm+4wgtUnecweYLMA==")
       {| maxAge := 600000; secure := false; sameSite := "none";
          domain := "localhost"; path := "/auth/demo/handler";
          httpOnly := true |};
     PassportAuthenticate "google"
       (AuthOptions
          (<["scope" := JStr "openid profile"]>
             (<["accessType" := JStr "offline"]>
                (<["prompt" := JStr "consent"]>
                   (<["state" := JStr "BSpPdJm+4wgtUnecweYLMA=="]> ∅)))))].
Proof. vm_compute. reflexivity. Qed.

(** Scenario B: unequal nonces. *)
Example scenario_invalid_nonce :
  trace (frameHandler Demo.config Demo.exchange_ok Demo.callback_mismatch)
  = [ReadCookie "demo-nonce"; ResStatus 401; ResSend (JStr "Invalid nonce")].
Proof. vm_compute. reflexivity. Qed.

(** Scenario C: matching nonces, a session with the refresh token [rt1]. *)
Example scenario_callback :
  trace (frameHandler Demo.config Demo.exchange_ok Demo.callback_request)
  = [ReadCookie "demo-nonce";
     PassportAuthenticate "google" AuthCallback;
     ResCookie "demo-refresh-token" (JStr "rt1")
       {| maxAge := 86400000000; secure := false; sameSite := "none";
          domain := "localhost"; path := "/auth/demo"; httpOnly := true |};
     PostMessageResponse
       (JObj (<["type" := JStr "auth-result"]>
                (<["payload" :=
                     JObj (<["profile" := JObj {[ "id" := JStr "u1" ]}]>
                             (<["idToken" := JStr "id1"]>
                                (<["accessToken" := JStr "at1"]>
                                   (<["scope" := JStr "openid profile"]>
                                      (<["expiresInSeconds" := JNum (safe 3599)]>
                                         ∅)))))]> ∅)))].
Proof. vm_compute. reflexivity. Qed.

(** Scenario D: [logout] with the header. *)
Example scenario_logout :
  trace (logout Demo.config Demo.trusted Demo.refresh_request)
  = [ResCookie "demo-refresh-token" (JStr "")
       {| maxAge := 0; secure := false; sameSite := "none";
          domain := "localhost"; path := "/auth/demo"; httpOnly := true |};
     ResSend (JStr "logout!")].
Proof. vm_compute. reflexivity. Qed.

(** A consent that the user denies: passport calls back with [false] for
    the user, and the callback reports a missing refresh token. *)
Example scenario_denied_consent :
  trace (frameHandler Demo.config (fun _ => Some (JNull, JBool false))
           Demo.callback_request)
  = [ReadCookie "demo-nonce";
     PassportAuthenticate "google" AuthCallback;
     PostMessageResponse
       (JObj (<["type" := JStr "auth-result"]>
                (<["error" := new_Error "Missing refresh token"]> ∅)))].
Proof. vm_compute. reflexivity. Qed.

(** ** Concrete runs *)

(** C5. At a [start] request without scope the handler throws the
    [InputError] [missing scope parameter] and does not call passport,
    but it has set the nonce cookie on the response before: the scope is
    checked after [res.cookie]. *)
Theorem start_without_scope_sets_nonce_cookie :
  let h := start Demo.config Demo.entropy Demo.start_without_scope in
  scope_of Demo.start_without_scope = Some ""
  /\ result h = Thrown (InputError "missing scope parameter")
  /\ idp_calls (trace h) = []
  /\ cookies_set (trace h)
     = [("demo-nonce", JStr "BSpPdJm+4wgtUnecweYLMA==",
         {| maxAge := 600000; secure := false; sameSite := "none";
            domain := "localhost"; path := "/auth/demo/handler";
            httpOnly := true |})]
  /\ cookies_set (trace h) <> [].
Proof. vm_compute. repeat split. discriminate. Qed.

(** C3, at a request that refutes it as stated: the nonce cookie is present
    with the empty value, the [state] parameter is present, the two are
    unequal, and the answer is [Missing nonce], not [Invalid nonce]. *)
Lemma empty_nonce_cookie_not_invalid :
  let req := Demo.callback_empty_cookie in
  let h := frameHandler Demo.config Demo.exchange_ok req in
  cookies req !! "demo-nonce" = Some (JStr "")
  /\ query req !! "state" = Some (JStr "Y")
  /\ JStr "" <> JStr "Y"
  /\ statusCode (trace h) = 401
  /\ sent (trace h) = [JStr "Missing nonce"]
  /\ sent (trace h) <> [JStr "Invalid nonce"].
Proof. vm_compute. repeat split; discriminate. Qed.

(** C1 on scenario C. *)
Lemma callback_redacts_refresh_token_witness :
  let req := Demo.callback_request in
  let h := frameHandler Demo.config Demo.exchange_ok req in
  (truthy (prop (cookies req) "demo-nonce") = true
   /\ strict_eq (prop (cookies req) "demo-nonce") (prop (query req) "state")
      = true
   /\ Demo.exchange_ok req
      = Some (JUndefined, JObj (Demo.session (JStr "rt1")))
   /\ truthy JUndefined = false
   /\ Demo.session (JStr "rt1") !! "refreshToken" = Some (JStr "rt1")
   /\ truthy (JStr "rt1") = true)
  /\ posted (trace h)
     = [JObj (<["type" := JStr "auth-result"]>
                (<["payload" :=
                     JObj (delete "refreshToken" (Demo.session (JStr "rt1")))]>
                   ∅))]
  /\ delete "refreshToken" (Demo.session (JStr "rt1")) !! "refreshToken" = None
  /\ cookies_set (trace h)
     = [("demo-refresh-token", JStr "rt1",
         {| maxAge := 86400000000; secure := false; sameSite := "none";
            domain := "localhost"; path := "/auth/demo"; httpOnly := true |})].
Proof.
  intros req h. split; [repeat split|].
  destruct (callback_redacts_refresh_token Demo.config Demo.exchange_ok
              Demo.callback_request) as [_ Hsuccess].
  destruct (Hsuccess JUndefined (Demo.session (JStr "rt1")) (JStr "rt1")
              eq_refl eq_refl eq_refl eq_refl eq_refl eq_refl)
    as (_ & _ & Hposted & Hredacted & _ & Hcookie).
  split; [exact Hposted|]. split; [exact Hredacted|exact Hcookie].
Defined.

(** C2 on the same callback with a session that has no refresh token. *)
Lemma refresh_cookie_needs_refresh_token_witness :
  let req := Demo.callback_request in
  let h := frameHandler Demo.config Demo.exchange_without_refresh_token req in
  (truthy (prop (cookies req) "demo-nonce") = true
   /\ strict_eq (prop (cookies req) "demo-nonce") (prop (query req) "state")
      = true
   /\ Demo.exchange_without_refresh_token req
      = Some (JUndefined, JObj (Demo.session JUndefined))
   /\ truthy JUndefined = false
   /\ truthy (prop (Demo.session JUndefined) "refreshToken") = false)
  /\ trace h
     = [ReadCookie "demo-nonce";
        PassportAuthenticate "google" AuthCallback;
        PostMessageResponse
          (JObj (<["type" := JStr "auth-result"]>
                   (<["error" := new_Error "Missing refresh token"]> ∅)))]
  /\ cookies_set (trace h) = [].
Proof.
  intros req h. split; [repeat split|].
  destruct (refresh_cookie_needs_refresh_token Demo.config
              Demo.exchange_without_refresh_token Demo.callback_request)
    as [_ Hmissing].
  destruct (Hmissing JUndefined (Demo.session JUndefined)
              eq_refl eq_refl eq_refl eq_refl eq_refl)
    as (Htrace & Hcookies & _).
  split; [exact Htrace|exact Hcookies].
Defined.

(** C3, as amended, on a callback without nonce cookie and on scenario B. *)
Lemma nonce_check_rejects_witness :
  (truthy (prop (cookies Demo.callback_no_cookie) "demo-nonce") = false
   /\ trace (frameHandler Demo.config Demo.exchange_ok Demo.callback_no_cookie)
      = [ReadCookie "demo-nonce"; ResStatus 401;
         ResSend (JStr "Missing nonce")])
  /\
  (truthy (prop (cookies Demo.callback_mismatch) "demo-nonce") = true
   /\ truthy (prop (query Demo.callback_mismatch) "state") = true
   /\ strict_eq (prop (cookies Demo.callback_mismatch) "demo-nonce")
        (prop (query Demo.callback_mismatch) "state") = false
   /\ trace (frameHandler Demo.config Demo.exchange_ok Demo.callback_mismatch)
      = [ReadCookie "demo-nonce"; ResStatus 401;
         ResSend (JStr "Invalid nonce")]
   /\ idp_calls
        (trace (frameHandler Demo.config Demo.exchange_ok
                  Demo.callback_mismatch)) = []
   /\ cookies_set
        (trace (frameHandler Demo.config Demo.exchange_ok
                  Demo.callback_mismatch)) = []).
Proof.
  split.
  - split; [reflexivity|].
    destruct (nonce_check_rejects Demo.config Demo.exchange_ok
                Demo.callback_no_cookie) as (Hmissing & _ & _).
    exact (Hmissing (or_introl eq_refl)).
  - do 3 (split; [reflexivity|]).
    destruct (nonce_check_rejects Demo.config Demo.exchange_ok
                Demo.callback_mismatch) as (_ & Hinvalid & Hquiet).
    split; [exact (Hinvalid eq_refl eq_refl eq_refl)|].
    destruct (Hquiet (or_intror (or_intror eq_refl)))
      as (_ & _ & Hcalls & Hcookies).
    split; [exact Hcalls|exact Hcookies].
Defined.

(** C4 on a refresh request without the header. *)
Lemma untrusted_request_rejected_witness :
  Demo.trusted Demo.refresh_untrusted = false
  /\ trace (refresh Demo.config Demo.trusted Demo.grant_ok Demo.refresh_untrusted)
     = [ResStatus 401; ResSend (JStr "Invalid X-Requested-With header")]
  /\ trace (logout Demo.config Demo.trusted Demo.refresh_untrusted)
     = [ResStatus 401; ResSend (JStr "Invalid X-Requested-With header")]
  /\ cookies_read
       (trace (refresh Demo.config Demo.trusted Demo.grant_ok
                 Demo.refresh_untrusted)) = [].
Proof.
  split; [reflexivity|].
  destruct (untrusted_request_rejected Demo.config Demo.trusted Demo.grant_ok
              Demo.refresh_untrusted eq_refl)
    as [(Hrefresh & _ & Hread & _) (Hlogout & _)].
  split; [exact Hrefresh|]. split; [exact Hlogout|exact Hread].
Defined.

(** C6 on scenario A. *)
Lemma start_binds_nonce_to_state_witness :
  (scope_of Demo.start_request = Some "openid profile"
   /\ "openid profile" <> "")
  /\ exists (bytes : list byte) (nonce : string) (opts : gmap string jsval),
       (16 <= length bytes)%nat
       /\ nonce = toString_base64 bytes
       /\ cookies_set (trace (start Demo.config Demo.entropy Demo.start_request))
          = [("demo-nonce", JStr nonce,
              {| maxAge := 600000; secure := false; sameSite := "none";
                 domain := "localhost"; path := "/auth/demo/handler";
                 httpOnly := true |})]
       /\ idp_calls (trace (start Demo.config Demo.entropy Demo.start_request))
          = [PassportAuthenticate "google" (AuthOptions opts)]
       /\ opts !! "state" = Some (JStr nonce).
Proof.
  assert (Hscope : "openid profile" <> "") by discriminate.
  split; [by split|].
  destruct (start_binds_nonce_to_state Demo.config Demo.entropy
              Demo.start_request "openid profile" eq_refl Hscope)
    as (bytes & nonce & opts & _ & Hlen & Hnonce & _ & _ & Htrace & Hstate
        & _ & Hcookie & _).
  exists bytes, nonce, opts.
  split; [exact Hlen|]. split; [exact Hnonce|]. split; [exact Hcookie|].
  split; [|exact Hstate].
  rewrite Htrace. reflexivity.
Defined.

(** C7 on a trusted refresh request without cookie. *)
Lemma refresh_without_session_cookie_witness :
  Demo.trusted Demo.refresh_without_cookie = true
  /\ cookies Demo.refresh_without_cookie !! "demo-refresh-token" = None
  /\ trace (refresh Demo.config Demo.trusted Demo.grant_ok
              Demo.refresh_without_cookie)
     = [ReadCookie "demo-refresh-token"; ResStatus 401;
        ResSend (JStr "Missing session cookie")].
Proof.
  do 2 (split; [reflexivity|]).
  exact (proj1 (refresh_without_session_cookie Demo.config Demo.trusted
                  Demo.grant_ok Demo.refresh_without_cookie eq_refl eq_refl)).
Defined.

(** C8 on a refresh whose grant succeeds. *)
Lemma refresh_grant_outcome_witness :
  let req := Demo.refresh_request in
  let h := refresh Demo.config Demo.trusted Demo.grant_ok req in
  (Demo.trusted req = true
   /\ truthy (prop (cookies req) "demo-refresh-token") = true
   /\ scope_of req = Some ""
   /\ Demo.grant_ok "demo" (JStr "rt1") ∅
      = Some (JNull, JStr "at2", JStr "rt2", JObj Demo.token_response)
   /\ truthy JNull = false /\ truthy (JStr "at2") = true)
  /\ trace h
     = [ReadCookie "demo-refresh-token";
        RequestNewAccessToken "demo" (JStr "rt1") ∅;
        ResSend
          (JObj (<["accessToken" := JStr "at2"]>
                   (<["idToken" := JStr "id2"]>
                      (<["expiresInSeconds" := JNum (safe 3599)]>
                         (<["scope" := JStr "openid profile"]> ∅)))))]
  /\ statusCode (trace h) = 200
  /\ (Demo.grant_failed "demo" (JStr "rt1") ∅
      = Some (JObj {[ "statusCode" := JNum (safe 400) ]}, JUndefined, JUndefined,
              JUndefined)
      /\ truthy (JObj {[ "statusCode" := JNum (safe 400) ]}) = true)
  /\ trace (refresh Demo.config Demo.trusted Demo.grant_failed req)
     = [ReadCookie "demo-refresh-token";
        RequestNewAccessToken "demo" (JStr "rt1") ∅;
        ResStatus 401; ResSend (JStr "Failed to refresh access token")].
Proof.
  intros req h. split; [repeat split|].
  destruct (refresh_grant_outcome Demo.config Demo.trusted Demo.grant_ok
              Demo.refresh_request "" JNull (JStr "at2") (JStr "rt2")
              (JObj Demo.token_response) eq_refl eq_refl eq_refl eq_refl)
    as [_ Hok].
  assert (Hu : JObj Demo.token_response <> JUndefined) by discriminate.
  assert (Hn : JObj Demo.token_response <> JNull) by discriminate.
  destruct (Hok eq_refl eq_refl Hu Hn) as (Htrace & Hstatus & _).
  split; [exact Htrace|]. split; [exact Hstatus|]. split; [by split|].
  destruct (refresh_grant_outcome Demo.config Demo.trusted Demo.grant_failed
              Demo.refresh_request ""
              (JObj {[ "statusCode" := JNum (safe 400) ]})
              JUndefined JUndefined JUndefined
              eq_refl eq_refl eq_refl eq_refl)
    as [Hfailed _].
  exact (proj1 (Hfailed (or_introl eq_refl))).
Defined.

(** C9 on the demo deployment: the nonce cookie of scenario A, the
    refresh-token cookie of scenario C and the clearing cookie of
    scenario D. *)
Lemma cookie_attributes_fixed_witness :
  let options (age : Z) (route : string) : CookieOptions :=
    {| maxAge := age; secure := false; sameSite := "none";
       domain := "localhost"; path := route; httpOnly := true |} in
  cookies_set (trace (start Demo.config Demo.entropy Demo.start_request))
  = [("demo-nonce", JStr "BSpPdJm+4wgtUnecweYLMA==",
      options 600000 "/auth/demo/handler")]
  /\ (truthy (prop (cookies Demo.callback_request) "demo-nonce") = true
      /\ strict_eq (prop (cookies Demo.callback_request) "demo-nonce")
           (prop (query Demo.callback_request) "state") = true
      /\ Demo.exchange_ok Demo.callback_request
         = Some (JUndefined, JObj (Demo.session (JStr "rt1")))
      /\ truthy JUndefined = false
      /\ Demo.session (JStr "rt1") !! "refreshToken" = Some (JStr "rt1")
      /\ truthy (JStr "rt1") = true)
  /\ cookies_set (trace (frameHandler Demo.config Demo.exchange_ok
                           Demo.callback_request))
     = [("demo-refresh-token", JStr "rt1", options 86400000000 "/auth/demo")]
  /\ Demo.trusted Demo.refresh_request = true
  /\ cookies_set (trace (logout Demo.config Demo.trusted Demo.refresh_request))
     = [("demo-refresh-token", JStr "", options 0 "/auth/demo")].
Proof.
  intros options.
  destruct (cookie_attributes_fixed Demo.config Demo.entropy Demo.trusted
              Demo.exchange_ok Demo.grant_ok Demo.start_request)
    as (_ & Hstart & _).
  split; [exact Hstart|]. split; [by repeat split|].
  destruct (cookie_attributes_fixed Demo.config Demo.entropy Demo.trusted
              Demo.exchange_ok Demo.grant_ok Demo.callback_request)
    as (_ & _ & Hcallback & _).
  split.
  { exact (Hcallback JUndefined (Demo.session (JStr "rt1")) (JStr "rt1")
             eq_refl eq_refl eq_refl eq_refl eq_refl eq_refl). }
  split; [reflexivity|].
  destruct (cookie_attributes_fixed Demo.config Demo.entropy Demo.trusted
              Demo.exchange_ok Demo.grant_ok Demo.refresh_request)
    as (_ & _ & _ & Hlogout & _).
  exact (Hlogout eq_refl).
Defined.

(** C10 on the callback with an empty nonce cookie. *)
Lemma empty_nonce_is_missing_witness :
  cookies Demo.callback_empty_cookie !! "demo-nonce" = Some (JStr "")
  /\ trace (frameHandler Demo.config Demo.exchange_ok Demo.callback_empty_cookie)
     = [ReadCookie "demo-nonce"; ResStatus 401; ResSend (JStr "Missing nonce")]
  /\ trace (frameHandler Demo.config Demo.exchange_ok Demo.callback_empty_cookie)
     = trace (frameHandler Demo.config Demo.exchange_ok
                (without_cookie "demo-nonce" Demo.callback_empty_cookie))
  /\ query Demo.callback_empty_state !! "state" = Some (JStr "")
  /\ trace (frameHandler Demo.config Demo.exchange_ok Demo.callback_empty_state)
     = [ReadCookie "demo-nonce"; ResStatus 401; ResSend (JStr "Missing nonce")].
Proof.
  split; [reflexivity|].
  destruct (empty_nonce_is_missing Demo.config Demo.exchange_ok
              Demo.callback_empty_cookie) as [Hcookie _].
  destruct (Hcookie eq_refl) as (Htrace & _ & Hsame).
  split; [exact Htrace|]. split; [exact Hsame|]. split; [reflexivity|].
  destruct (empty_nonce_is_missing Demo.config Demo.exchange_ok
              Demo.callback_empty_state) as [_ Hstate].
  exact (proj1 (Hstate eq_refl)).
Defined.


(** ** Further properties of the handlers *)

Lemma append_inj_r (s a b : string) : s +:+ a = s +:+ b -> a = b.
Proof.
  induction s as [|c s IH]; cbn; [done|]. intros H. injection H as H. auto.
Qed.

(** A repeated query parameter prints as its values joined by commas. *)
Lemma toString_JArr_strings (items : list string) :
  toString (JArr (map JStr items)) = Some (join "," items).
Proof.
  cbn [toString].
  assert (H : forall l : list string,
            (fix each (l : list jsval) : option (list string) :=
               match l with
               | [] => Some []
               | JUndefined :: l' | JNull :: l' => cons "" <$> each l'
               | x :: l' => s ← toString x; cons s <$> each l'
               end) (map JStr l) = Some l).
  { induction l as [|s l IH]; [done|]. cbn [map]. rewrite IH. done. }
  by rewrite H.
Qed.

Section Coverage.

Variable providerConfig : AuthProviderConfig.
Variable entropy : nat -> byte.
Variable ensuresXRequestedWith : request -> bool.
Variable exchange : request -> option (jsval * jsval).
Variable grant :
  string -> jsval -> gmap string jsval ->
  option (jsval * jsval * jsval * jsval).

Let providerId : string := provider providerConfig.
Let nonceOptions : CookieOptions :=
  {| maxAge := 600000; secure := false; sameSite := "none";
     domain := "localhost"; path := "/auth/" +:+ providerId +:+ "/handler";
     httpOnly := true |}.
Let refreshTokenOptions (age : Z) : CookieOptions :=
  {| maxAge := age; secure := false; sameSite := "none";
     domain := "localhost"; path := "/auth/" +:+ providerId;
     httpOnly := true |}.

(** The parameters [refresh] hands to the grant for a scope. *)
Let requestParams (scope : string) : gmap string jsval :=
  if truthy (JStr scope) then <["scope" := JStr scope]> ∅ else ∅.

(** Every run of [refresh] is one of six. *)
Lemma refresh_cases (req : request) :
  let name := providerId +:+ "-refresh-token" in
  let refreshToken := prop (cookies req) name in
  let t := trace (refresh providerConfig ensuresXRequestedWith grant req) in
  (ensuresXRequestedWith req = false
   /\ t = [ResStatus 401; ResSend (JStr "Invalid X-Requested-With header")])
  \/ (ensuresXRequestedWith req = true /\ truthy refreshToken = false
      /\ t = [ReadCookie name; ResStatus 401;
              ResSend (JStr "Missing session cookie")])
  \/ (ensuresXRequestedWith req = true /\ truthy refreshToken = true
      /\ scope_of req = None /\ t = [ReadCookie name])
  \/ (ensuresXRequestedWith req = true /\ truthy refreshToken = true
      /\ exists scope,
           scope_of req = Some scope
           /\ (t = [ReadCookie name;
                    RequestNewAccessToken providerId refreshToken
                      (requestParams scope)]
               \/ t = [ReadCookie name;
                       RequestNewAccessToken providerId refreshToken
                         (requestParams scope);
                       ResStatus 401;
                       ResSend (JStr "Failed to refresh access token")]
               \/ exists body,
                    t = [ReadCookie name;
                         RequestNewAccessToken providerId refreshToken
                           (requestParams scope);
                         ResSend (JObj body)])).
Proof.
  intros name refreshToken t. unfold t, trace.
  destruct (ensuresXRequestedWith req) eqn:Hx;
    [|left; by rewrite refresh_guard].
  right.
  destruct (truthy refreshToken) eqn:Hc;
    [|left; by rewrite refresh_missing_cookie].
  right.
  destruct (scope_of req) as [scope|] eqn:Hscope;
    [|left; by rewrite refresh_scope_throws].
  right. split; [done|]. split; [done|]. exists scope. split; [done|].
  rewrite (refresh_reaches_grant _ _ _ req scope Hx Hc Hscope). cbn zeta.
  fold providerId. fold name. fold refreshToken. fold (requestParams scope).
  destruct (grant providerId refreshToken (requestParams scope))
    as [[[[err accessToken] _refreshToken] params]|]; [|by left].
  destruct (truthy err) eqn:He.
  { right; left. by rewrite refresh_callback_failed by auto. }
  destruct (truthy accessToken) eqn:Ha;
    [|right; left; by rewrite refresh_callback_failed by auto].
  assert (Hnullish : (params = JUndefined \/ params = JNull)
                     \/ (params <> JUndefined /\ params <> JNull)).
  { destruct params; auto; right; split; discriminate. }
  destruct Hnullish as [Hp | [Hu Hn]].
  - left. by rewrite refresh_callback_without_results.
  - right; right. eexists. by rewrite refresh_callback_ok.
Qed.

(** [start] from any state of the random source. *)
Lemma start_from (req : request) (s : state) :
  let nonce := toString_base64 (map entropy (seq (drawn s) 16)) in
  let cookie := ResCookie (providerId +:+ "-nonce") (JStr nonce) nonceOptions in
  start providerConfig entropy req s
  = match scope_of req with
    | None =>
        (Thrown TypeError,
         {| drawn := (drawn s + 16)%nat; log := log s ++ [cookie] |})
    | Some scope =>
        if truthy (JStr scope) then
          (Returned tt,
           {| drawn := (drawn s + 16)%nat;
              log := log s ++
                [cookie;
                 PassportAuthenticate "google"
                   (AuthOptions
                      (<["scope" := JStr scope]>
                         (<["accessType" := JStr "offline"]>
                            (<["prompt" := JStr "consent"]>
                               (<["state" := JStr nonce]> ∅)))))] |})
        else
          (Thrown (InputError "missing scope parameter"),
           {| drawn := (drawn s + 16)%nat; log := log s ++ [cookie] |})
    end.
Proof.
  intros nonce cookie. unfold start, randomBytes, converted. run.
  destruct (scope_of req) as [scope|]; run; [|done].
  destruct (truthy (JStr scope)); cbn [negb]; run;
    by rewrite <- ?app_assoc.
Qed.

(** X1. A logout that passes the header check stages the refresh-token
    cookie with the empty value and max-age 0, answers [logout!] with the
    default status 200, and does nothing else: it looks up no cookie (so
    it succeeds with or without a session) and calls no library of the
    identity provider. *)
Theorem logout_clears_session (req : request) :
  let t := trace (logout providerConfig ensuresXRequestedWith req) in
  ensuresXRequestedWith req = true ->
  t = [ResCookie (providerId +:+ "-refresh-token") (JStr "")
         (refreshTokenOptions 0);
       ResSend (JStr "logout!")]
  /\ statusCode t = 200
  /\ cookies_read t = []
  /\ idp_calls t = []
  /\ result (logout providerConfig ensuresXRequestedWith req) = Returned tt.
Proof.
  intros t Hx. unfold t, trace, result. by rewrite (logout_run _ _ req Hx).
Qed.

(** X2. A refresh that passes both guards and whose scope converts to a
    string calls the grant exactly once, for the provider id, with the
    cookie's value as it was read, and with the requested scope:
    [{ scope }] for a non-empty scope, the empty object for none.  This
    holds whatever the grant answers.  When the scope does not convert (a
    query object with a [toString] key), [refresh] throws a [TypeError]
    after reading the cookie and the grant is not called. *)
Theorem refresh_forwards_token_and_scope (req : request) :
  let name := providerId +:+ "-refresh-token" in
  let refreshToken := prop (cookies req) name in
  let h := refresh providerConfig ensuresXRequestedWith grant req in
  ensuresXRequestedWith req = true ->
  truthy refreshToken = true ->
  (scope_of req = Some "" ->
   idp_calls (trace h) = [RequestNewAccessToken providerId refreshToken ∅])
  /\
  (forall scope, scope_of req = Some scope -> scope <> "" ->
   idp_calls (trace h)
   = [RequestNewAccessToken providerId refreshToken
        {[ "scope" := JStr scope ]}])
  /\
  (scope_of req = None ->
   idp_calls (trace h) = [] /\ trace h = [ReadCookie name]
   /\ result h = Thrown TypeError).
Proof.
  intros name refreshToken h Hx Hc.
  assert (Hcalls : forall scope, scope_of req = Some scope ->
                   idp_calls (trace h)
                   = [RequestNewAccessToken providerId refreshToken
                        (requestParams scope)]).
  { intros scope Hscope. unfold h, refreshToken, name in *.
    destruct (refresh_cases req)
      as [[Hx' _] | [(_ & Hc' & _) | [(_ & _ & Hnone & _)
         | (_ & _ & scope' & Hscope' & [Ht | [Ht | [body Ht]]])]]];
      try congruence;
      assert (scope' = scope) as -> by congruence; by rewrite Ht. }
  split; [|split].
  - intros Hscope. by rewrite (Hcalls _ Hscope).
  - intros scope Hscope Hne. rewrite (Hcalls _ Hscope). unfold requestParams.
    destruct (truthy (JStr scope)) eqn:E.
    + by rewrite insert_empty.
    + by apply truthy_JStr in E.
  - intros Hscope. unfold h, trace, result.
    by rewrite (refresh_scope_throws _ _ _ req Hx Hc Hscope).
Qed.

(** X3. When the exchange reports an error, the callback posts the error
    [Google auth failed, <err>] to the browser, with the default status
    200, and sets no cookie, even when a user object with a refresh token
    comes along with the error.  An error that cannot be converted to a
    string makes the callback throw a [TypeError] instead, with nothing
    posted and no cookie. *)
Theorem exchange_error_reported (req : request) (err user : jsval) :
  let name := providerId +:+ "-nonce" in
  let h := frameHandler providerConfig exchange req in
  truthy (prop (cookies req) name) = true ->
  strict_eq (prop (cookies req) name) (prop (query req) "state") = true ->
  exchange req = Some (err, user) ->
  truthy err = true ->
  (forall text, toString err = Some text ->
   trace h
   = [ReadCookie name;
      PassportAuthenticate "google" AuthCallback;
      PostMessageResponse
        (JObj (<["type" := JStr "auth-result"]>
                 (<["error" := new_Error ("Google auth failed, " +:+ text)]>
                    ∅)))]
   /\ cookies_set (trace h) = []
   /\ statusCode (trace h) = 200)
  /\
  (toString err = None ->
   result h = Thrown TypeError
   /\ trace h = [ReadCookie name; PassportAuthenticate "google" AuthCallback]
   /\ cookies_set (trace h) = []).
Proof.
  intros name h Hc Heq Hex He. unfold h, trace, result.
  rewrite (frameHandler_valid_nonce _ _ req Hc Heq), Hex. cbn zeta.
  split.
  - intros text Htext.
    by rewrite (frameHandler_callback_error _ _ _ text) by done.
  - intros Htext. by rewrite frameHandler_callback_error_throws by done.
Qed.

(** X4. When passport calls back without error and with a user that is no
    object, as it does with [false] after a failed authentication, the
    callback posts the error [Missing refresh token] and sets no
    cookie. *)
Theorem callback_without_session_object (req : request) (err user : jsval) :
  let name := providerId +:+ "-nonce" in
  let t := trace (frameHandler providerConfig exchange req) in
  truthy (prop (cookies req) name) = true ->
  strict_eq (prop (cookies req) name) (prop (query req) "state") = true ->
  exchange req = Some (err, user) ->
  truthy err = false ->
  user <> JUndefined -> user <> JNull ->
  (forall session, user <> JObj session) ->
  t = [ReadCookie name;
       PassportAuthenticate "google" AuthCallback;
       PostMessageResponse
         (JObj (<["type" := JStr "auth-result"]>
                  (<["error" := new_Error "Missing refresh token"]> ∅)))]
  /\ cookies_set t = [].
Proof.
  intros name t Hc Heq Hex He Hu Hn Hno. unfold t, trace.
  rewrite (frameHandler_valid_nonce _ _ req Hc Heq), Hex. cbn zeta.
  rewrite frameHandler_callback_missing; [done..|].
  destruct user; try done. by destruct (Hno fields).
Qed.

(** X5. When passport calls back without error and with [undefined] or
    [null] for the user, reading [refreshToken] off it throws a
    [TypeError]: the callback posts nothing, sends nothing and sets no
    cookie. *)
Theorem callback_throws_without_user (req : request) (err user : jsval) :
  let name := providerId +:+ "-nonce" in
  let h := frameHandler providerConfig exchange req in
  truthy (prop (cookies req) name) = true ->
  strict_eq (prop (cookies req) name) (prop (query req) "state") = true ->
  exchange req = Some (err, user) ->
  truthy err = false ->
  user = JUndefined \/ user = JNull ->
  result h = Thrown TypeError
  /\ trace h = [ReadCookie name; PassportAuthenticate "google" AuthCallback]
  /\ posted (trace h) = [] /\ sent (trace h) = []
  /\ cookies_set (trace h) = [].
Proof.
  intros name h Hc Heq Hex He Hu. unfold h, trace, result.
  rewrite (frameHandler_valid_nonce _ _ req Hc Heq), Hex. cbn zeta.
  by rewrite frameHandler_callback_nullish.
Qed.

(** What the custom callback adds to the log holds no call to a library
    of the identity provider. *)
Lemma frameHandler_callback_calls (err user : jsval) (s : state) :
  idp_calls (log (snd (frameHandler_callback providerConfig err user s)))
  = idp_calls (log s).
Proof.
  unfold frameHandler_callback, get, converted, idp_calls.
  destruct (truthy err); run;
    [destruct (toString err); run; by rewrite ?omap_app, ?app_nil_r|].
  destruct user; run; try done;
    match goal with
    | |- context [if ?b then _ else _] => destruct b
    end; run; by rewrite ?omap_app, ?app_nil_r.
Qed.

(** X6. The callback hands the request to passport exactly when the nonce
    cookie is truthy and strictly equal to the [state] parameter; then
    the two are one and the same primitive value.  In every other case
    passport is not called. *)
Theorem exchange_iff_nonce_matches (req : request) :
  let name := providerId +:+ "-nonce" in
  let cookieNonce := prop (cookies req) name in
  let stateNonce := prop (query req) "state" in
  let t := trace (frameHandler providerConfig exchange req) in
  (idp_calls t = [PassportAuthenticate "google" AuthCallback]
   \/ idp_calls t = [])
  /\ (idp_calls t = [PassportAuthenticate "google" AuthCallback]
      <-> truthy cookieNonce = true /\ strict_eq cookieNonce stateNonce = true)
  /\ (idp_calls t = [PassportAuthenticate "google" AuthCallback]
      -> cookieNonce = stateNonce
         /\ (forall items, stateNonce <> JArr items)
         /\ (forall fields, stateNonce <> JObj fields)).
Proof.
  intros name cookieNonce stateNonce t.
  assert (Hyes : truthy cookieNonce = true ->
                 strict_eq cookieNonce stateNonce = true ->
                 idp_calls t = [PassportAuthenticate "google" AuthCallback]).
  { intros Hc Heq. unfold t, trace.
    rewrite (frameHandler_valid_nonce _ _ req Hc Heq). cbn zeta.
    destruct (exchange req) as [[e u]|]; [|done].
    by rewrite frameHandler_callback_calls. }
  assert (Hno : truthy cookieNonce = false \/ truthy stateNonce = false
                \/ strict_eq cookieNonce stateNonce = false ->
                idp_calls t = []).
  { intros H. unfold t, trace.
    destruct (truthy cookieNonce) eqn:Hc;
      [|by rewrite frameHandler_missing_nonce by auto].
    destruct (truthy stateNonce) eqn:Hs;
      [|by rewrite frameHandler_missing_nonce by auto].
    destruct H as [H | [H | H]]; try discriminate.
    by rewrite frameHandler_invalid_nonce by auto. }
  assert (Hiff : idp_calls t = [PassportAuthenticate "google" AuthCallback]
                 <-> truthy cookieNonce = true
                     /\ strict_eq cookieNonce stateNonce = true).
  { split; [|by intros [Hc Heq]; apply Hyes].
    intros Hcall.
    destruct (truthy cookieNonce) eqn:Hc; [|by rewrite Hno in Hcall by auto].
    destruct (strict_eq cookieNonce stateNonce) eqn:Heq; [done|].
    by rewrite Hno in Hcall by auto. }
  split; [|split; [exact Hiff|]].
  - destruct (truthy cookieNonce) eqn:Hc; [|right; apply Hno; auto].
    destruct (strict_eq cookieNonce stateNonce) eqn:Heq;
      [left; by apply Hyes|right; apply Hno; auto].
  - intros Hcall. apply Hiff in Hcall as [Hc Heq].
    pose proof (strict_eq_eq _ _ Heq) as Hsame. split; [done|].
    split; intros x Hx; rewrite Hx in Heq; by destruct cookieNonce.
Qed.

(** X7. A [state] parameter that is not a string but an array or an
    object, as a repeated [state=..&state=..] parses, never matches the
    nonce cookie: the answer is 401 [Invalid nonce] whatever the cookie
    holds, and passport is not called. *)
Theorem structured_state_rejected (req : request) :
  let name := providerId +:+ "-nonce" in
  let stateNonce := prop (query req) "state" in
  let t := trace (frameHandler providerConfig exchange req) in
  truthy (prop (cookies req) name) = true ->
  (exists items, stateNonce = JArr items)
  \/ (exists fields, stateNonce = JObj fields) ->
  t = [ReadCookie name; ResStatus 401; ResSend (JStr "Invalid nonce")]
  /\ idp_calls t = [] /\ cookies_set t = [].
Proof.
  intros name stateNonce t Hc Hs. unfold t, trace.
  rewrite frameHandler_invalid_nonce; [done|done|..].
  - unfold stateNonce in Hs. by destruct Hs as [[x ->] | [x ->]].
  - unfold stateNonce in Hs. fold providerId. fold name.
    destruct Hs as [[x ->] | [x ->]];
      by destruct (prop (cookies req) name).
Qed.

(** X8. With a scope that prints as a non-empty string, [start] ends by
    calling [passport.authenticate] for the strategy [google] with
    exactly the options [scope], [accessType], [prompt] and [state],
    asking for offline access and a forced consent; it never calls
    [res.status], and sends and posts nothing itself. *)
Theorem start_requests_offline_consent (req : request) (scope : string) :
  let t := trace (start providerConfig entropy req) in
  scope_of req = Some scope -> scope <> "" ->
  exists opts : gmap string jsval,
    idp_calls t = [PassportAuthenticate "google" (AuthOptions opts)]
    /\ last t = Some (PassportAuthenticate "google" (AuthOptions opts))
    /\ dom opts
       = ({["scope"; "accessType"; "prompt"; "state"]} : gset string)
    /\ opts !! "accessType" = Some (JStr "offline")
    /\ opts !! "prompt" = Some (JStr "consent")
    /\ sent t = [] /\ posted t = [] /\ statusCode t = 200
    /\ (forall code, ResStatus code ∉ t).
Proof.
  intros t Hscope Hne.
  assert (Ht : truthy (JStr scope) = true).
  { destruct (truthy (JStr scope)) eqn:E; [done|].
    by apply truthy_JStr in E. }
  eexists. unfold t, trace. rewrite start_run, Hscope, Ht. cbn.
  split; [reflexivity|]. split; [reflexivity|].
  split; [rewrite !dom_insert_L; set_solver|].
  split; [by simplify_map_eq|]. split; [by simplify_map_eq|].
  do 3 (split; [done|]).
  intros code Hin. apply elem_of_cons in Hin as [Hin | Hin]; [done|].
  by apply list_elem_of_singleton in Hin.
Qed.

(** X9. The strategy and the callback together: when the exchange hands
    over what the verify callback built from the provider's answer, a
    truthy refresh token goes into the cookie and the browser gets
    exactly [profile], [idToken], [accessToken], [scope] and
    [expiresInSeconds]; a falsy one (the provider sent none) gives the
    error [Missing refresh token] and no cookie. *)
Theorem verified_session_reaches_browser
    (req : request) (accessToken refreshToken profile : jsval)
    (params : gmap string jsval) (s s' : state) (err user : jsval) :
  let name := providerId +:+ "-nonce" in
  let t := trace (frameHandler providerConfig exchange req) in
  truthy (prop (cookies req) name) = true ->
  strict_eq (prop (cookies req) name) (prop (query req) "state") = true ->
  strategy_verify accessToken refreshToken (JObj params) profile s
  = (Returned (err, user), s') ->
  exchange req = Some (err, user) ->
  (truthy refreshToken = true ->
   exists payload : gmap string jsval,
     posted t
     = [JObj (<["type" := JStr "auth-result"]>
                (<["payload" := JObj payload]> ∅))]
     /\ dom payload
        = ({["profile"; "idToken"; "accessToken"; "scope";
             "expiresInSeconds"]} : gset string)
     /\ payload !! "profile" = Some profile
     /\ payload !! "idToken" = Some (prop params "id_token")
     /\ payload !! "accessToken" = Some accessToken
     /\ payload !! "scope" = Some (prop params "scope")
     /\ payload !! "expiresInSeconds" = Some (prop params "expires_in")
     /\ cookies_set t
        = [(providerId +:+ "-refresh-token", refreshToken,
            refreshTokenOptions 86400000000)])
  /\
  (truthy refreshToken = false ->
   posted t
   = [JObj (<["type" := JStr "auth-result"]>
              (<["error" := new_Error "Missing refresh token"]> ∅))]
   /\ cookies_set t = []).
Proof.
  intros name t Hc Heq Hverify Hex.
  unfold strategy_verify, get, member in Hverify. run in Hverify.
  injection Hverify as <- <- <-.
  unfold t, trace.
  rewrite (frameHandler_valid_nonce _ _ req Hc Heq), Hex. cbn zeta.
  split; intros Hrt.
  - rewrite frameHandler_callback_success;
      [|done|unfold prop; by simplify_map_eq].
    eexists. cbn. split; [reflexivity|].
    split.
    { rewrite dom_delete_L, !dom_insert_L. set_solver. }
    unfold prop. repeat split; by simplify_map_eq.
  - rewrite frameHandler_callback_missing; [done|done|done|done|].
    unfold member, prop. by simplify_map_eq.
Qed.

(** X10. A refresh-token cookie that is present but empty (or otherwise
    falsy) is handled as a missing one: 401 [Missing session cookie], and
    the grant is not requested. *)
Theorem refresh_with_empty_cookie (req : request) (value : jsval) :
  let name := providerId +:+ "-refresh-token" in
  let t := trace (refresh providerConfig ensuresXRequestedWith grant req) in
  ensuresXRequestedWith req = true ->
  cookies req !! name = Some value ->
  truthy value = false ->
  t = [ReadCookie name; ResStatus 401; ResSend (JStr "Missing session cookie")]
  /\ statusCode t = 401
  /\ idp_calls t = [].
Proof.
  intros name t Hx Hcookie Hv. unfold t, trace.
  rewrite refresh_missing_cookie; [done|done|].
  unfold prop. fold providerId. fold name. by rewrite Hcookie.
Qed.

(** X11. No handler answers twice: in every run of the callback, of
    [refresh] and of [logout] at most one body is sent or one message is
    posted, and [start] sends and posts nothing (passport, or the error
    handler, answers for it). *)
Theorem single_response (req : request) :
  let answers (t : list effect) : nat := (length (sent t) + length (posted t))%nat in
  (answers (trace (frameHandler providerConfig exchange req)) <= 1)%nat
  /\ (answers (trace (refresh providerConfig ensuresXRequestedWith grant req))
      <= 1)%nat
  /\ (answers (trace (logout providerConfig ensuresXRequestedWith req)) <= 1)%nat
  /\ answers (trace (start providerConfig entropy req)) = 0%nat.
Proof.
  intros answers. unfold answers. split; [|split; [|split]].
  - destruct (frameHandler_cases providerConfig exchange req)
      as [-> | [-> | [-> | [[message ->] | (e & o & _ & _ & _ & ->)]]]];
      cbn; lia.
  - destruct (refresh_cases req)
      as [[_ ->] | [(_ & _ & ->) | [(_ & _ & _ & ->)
         | (_ & _ & scope & _ & [-> | [-> | [body ->]]])]]];
      cbn; lia.
  - unfold trace. destruct (ensuresXRequestedWith req) eqn:Hx.
    + rewrite (logout_run _ _ req Hx). cbn. lia.
    + rewrite (logout_guard _ _ req Hx). cbn. lia.
  - unfold trace. rewrite start_run. cbn zeta.
    destruct (scope_of req) as [scope|]; [|done].
    by destruct (truthy (JStr scope)).
Qed.

(** A log without any [res.status]. *)
Ltac no_status :=
  let code := fresh "code" in
  let Hin := fresh "Hin" in
  intros code Hin;
  repeat (apply elem_of_cons in Hin as [Hin | Hin]; [discriminate|]);
  by apply elem_of_nil in Hin.

(** X12. The handlers set no status but 401, at most once, and a 401 is
    followed by one plain-text body and nothing else, with nothing sent
    or posted and no cookie set before it: every run of the callback, of
    [refresh] and of [logout] either calls [res.status] not at all or
    ends in such a 401.  [start] never calls [res.status]. *)
Theorem unauthorized_is_plain_text (req : request) :
  let plain (t : list effect) : Prop :=
    (forall code, ResStatus code ∉ t)
    \/ (exists before text,
          t = (before ++ [ResStatus 401; ResSend (JStr text)])%list
          /\ (forall code, ResStatus code ∉ before)
          /\ sent before = [] /\ posted before = []
          /\ cookies_set before = []) in
  plain (trace (frameHandler providerConfig exchange req))
  /\ plain (trace (refresh providerConfig ensuresXRequestedWith grant req))
  /\ plain (trace (logout providerConfig ensuresXRequestedWith req))
  /\ (forall code,
        ResStatus code ∉ trace (start providerConfig entropy req)).
Proof.
  intros plain. unfold plain. split; [|split; [|split]].
  - destruct (frameHandler_cases providerConfig exchange req)
      as [-> | [-> | [-> | [[message ->] | (e & o & _ & _ & _ & ->)]]]].
    + right. exists [ReadCookie (providerId +:+ "-nonce")], "Missing nonce".
      split; [done|]. split; [no_status|done].
    + right. exists [ReadCookie (providerId +:+ "-nonce")], "Invalid nonce".
      split; [done|]. split; [no_status|done].
    + left. no_status.
    + left. cbn. no_status.
    + left. cbn. no_status.
  - destruct (refresh_cases req)
      as [[_ ->] | [(_ & _ & ->) | [(_ & _ & _ & ->)
         | (_ & _ & scope & _ & [-> | [-> | [body ->]]])]]].
    + right. exists [], "Invalid X-Requested-With header".
      split; [done|]. split; [no_status|done].
    + right.
      exists [ReadCookie (providerId +:+ "-refresh-token")],
        "Missing session cookie".
      split; [done|]. split; [no_status|done].
    + left. no_status.
    + left. no_status.
    + right.
      exists [ReadCookie (providerId +:+ "-refresh-token");
              RequestNewAccessToken providerId
                (prop (cookies req) (providerId +:+ "-refresh-token"))
                (requestParams scope)],
        "Failed to refresh access token".
      split; [done|]. split; [no_status|done].
    + left. no_status.
  - unfold trace. destruct (ensuresXRequestedWith req) eqn:Hx.
    + rewrite (logout_run _ _ req Hx). left. cbn. no_status.
    + rewrite (logout_guard _ _ req Hx). right.
      exists [], "Invalid X-Requested-With header".
      split; [done|]. split; [no_status|done].
  - unfold trace. rewrite start_run. cbn zeta.
    destruct (scope_of req) as [scope|];
      [destruct (truthy (JStr scope))|]; cbn; no_status.
Qed.

(** X13. Each handler looks up its own cookie and no other: [start] and
    [logout] read no cookie, the callback reads the nonce cookie exactly
    once in every run, and [refresh] reads the refresh-token cookie once
    when the header check passes and nothing when it fails. *)
Theorem cookie_reads (req : request) :
  cookies_read (trace (start providerConfig entropy req)) = []
  /\ cookies_read (trace (logout providerConfig ensuresXRequestedWith req)) = []
  /\ cookies_read (trace (frameHandler providerConfig exchange req))
     = [providerId +:+ "-nonce"]
  /\ cookies_read (trace (refresh providerConfig ensuresXRequestedWith grant req))
     = if ensuresXRequestedWith req
       then [providerId +:+ "-refresh-token"] else [].
Proof.
  split; [|split; [|split]].
  - unfold trace. rewrite start_run. cbn zeta.
    destruct (scope_of req) as [scope|]; [|done].
    by destruct (truthy (JStr scope)).
  - unfold trace. destruct (ensuresXRequestedWith req) eqn:Hx.
    + by rewrite (logout_run _ _ req Hx).
    + by rewrite (logout_guard _ _ req Hx).
  - destruct (frameHandler_cases providerConfig exchange req)
      as [-> | [-> | [-> | [[message ->] | (e & o & _ & _ & _ & ->)]]]];
      done.
  - destruct (refresh_cases req)
      as [[-> ->] | [(-> & _ & ->) | [(-> & _ & _ & ->)
         | (-> & _ & scope & _ & [-> | [-> | [body ->]]])]]];
      done.
Qed.

(** X14. Every [start] takes sixteen fresh bytes from the random source,
    also when it fails for want of a scope.  Of two starts in a row the
    first sets the nonce of bytes 0-15 and the second that of bytes
    16-31, and the two nonces are equal only if the source gave the same
    sixteen bytes twice. *)
Theorem successive_starts_draw_fresh_bytes (req1 req2 : request) :
  let s1 := snd (start providerConfig entropy req1 initial) in
  let s2 := snd (start providerConfig entropy req2 s1) in
  exists nonce1 nonce2 : string,
    nonce1 = toString_base64 (map entropy (seq 0 16))
    /\ nonce2 = toString_base64 (map entropy (seq 16 16))
    /\ cookies_set (log s2)
       = [(providerId +:+ "-nonce", JStr nonce1, nonceOptions);
          (providerId +:+ "-nonce", JStr nonce2, nonceOptions)]
    /\ drawn s1 = 16%nat /\ drawn s2 = 32%nat
    /\ (nonce1 = nonce2
        <-> map entropy (seq 0 16) = map entropy (seq 16 16)).
Proof.
  intros s1 s2. eexists _, _.
  split; [reflexivity|]. split; [reflexivity|].
  assert (H1 : drawn s1 = 16%nat
               /\ cookies_set (log s1)
                  = [(providerId +:+ "-nonce",
                      JStr (toString_base64 (map entropy (seq 0 16))),
                      nonceOptions)]).
  { unfold s1. rewrite start_from.
    destruct (scope_of req1) as [scope|]; [|done].
    by destruct (truthy (JStr scope)). }
  destruct H1 as [Hd1 Hc1].
  assert (H2 : drawn s2 = 32%nat
               /\ cookies_set (log s2)
                  = (cookies_set (log s1)
                     ++ [(providerId +:+ "-nonce",
                          JStr (toString_base64 (map entropy (seq 16 16))),
                          nonceOptions)])%list).
  { unfold s2. rewrite start_from, Hd1.
    destruct (scope_of req2) as [scope|];
      [destruct (truthy (JStr scope))|]; cbn [snd drawn log];
      unfold cookies_set; by rewrite omap_app. }
  destruct H2 as [Hd2 Hc2].
  split; [by rewrite Hc2, Hc1|]. split; [done|]. split; [done|].
  split; [apply toString_base64_inj|by intros ->].
Qed.

(** X15. A scope that is repeated in the query
    ([scope=openid&scope=profile]) reaches [passport.authenticate] as one
    string, the values joined by commas. *)
Theorem start_joins_repeated_scope (req : request) (items : list string) :
  let t := trace (start providerConfig entropy req) in
  query req !! "scope" = Some (JArr (map JStr items)) ->
  join "," items <> "" ->
  exists opts : gmap string jsval,
    idp_calls t = [PassportAuthenticate "google" (AuthOptions opts)]
    /\ opts !! "scope" = Some (JStr (join "," items)).
Proof.
  intros t Hq Hjoin.
  assert (Hscope : scope_of req = Some (join "," items)).
  { unfold scope_of, prop. rewrite Hq. cbn [default].
    apply toString_JArr_strings. }
  assert (Ht : truthy (JStr (join "," items)) = true).
  { destruct (truthy (JStr (join "," items))) eqn:E; [done|].
    by apply truthy_JStr in E. }
  eexists. unfold t, trace. rewrite start_run, Hscope, Ht. cbn.
  split; [reflexivity|]. by simplify_map_eq.
Qed.

(** X16. When the grant, requested for the scope of the request, reports
    an access token and hands over [undefined] or [null] for the token
    response, reading [id_token] off it throws a [TypeError] after the
    grant was requested: [refresh] sends nothing and never calls
    [res.status]. *)
Theorem refresh_throws_without_token_response
    (req : request) (scope : string)
    (err accessToken _refreshToken params : jsval) :
  let name := providerId +:+ "-refresh-token" in
  let refreshToken := prop (cookies req) name in
  let h := refresh providerConfig ensuresXRequestedWith grant req in
  ensuresXRequestedWith req = true ->
  truthy refreshToken = true ->
  scope_of req = Some scope ->
  grant providerId refreshToken (requestParams scope)
  = Some (err, accessToken, _refreshToken, params) ->
  truthy err = false -> truthy accessToken = true ->
  params = JUndefined \/ params = JNull ->
  result h = Thrown TypeError
  /\ trace h
     = [ReadCookie name;
        RequestNewAccessToken providerId refreshToken (requestParams scope)]
  /\ sent (trace h) = [] /\ statusCode (trace h) = 200
  /\ (forall code, ResStatus code ∉ trace h).
Proof.
  intros name refreshToken h Hx Hc Hscope Hgrant He Ha Hp.
  unfold h, trace, result.
  rewrite (refresh_reaches_grant _ _ _ req scope Hx Hc Hscope). cbn zeta.
  fold providerId. fold name. fold refreshToken. fold (requestParams scope).
  rewrite Hgrant. rewrite refresh_callback_without_results by done.
  cbn. repeat (split; [done|]). no_status.
Qed.

(** X17. The two cookies are never mixed up: [start] sets no cookie under
    the refresh-token name, and the callback, [refresh] and [logout] set
    none under the nonce name; so a callback never clears or renews the
    nonce it has checked. *)
Theorem cookie_names_apart (req : request) :
  let names (t : list effect) : list string := (fun c => c.1.1) <$> cookies_set t in
  providerId +:+ "-nonce" <> providerId +:+ "-refresh-token"
  /\ ((providerId +:+ "-refresh-token")
      ∉ names (trace (start providerConfig entropy req)))
  /\ ((providerId +:+ "-nonce")
      ∉ names (trace (frameHandler providerConfig exchange req)))
  /\ ((providerId +:+ "-nonce")
      ∉ names (trace (refresh providerConfig ensuresXRequestedWith grant req)))
  /\ ((providerId +:+ "-nonce")
      ∉ names (trace (logout providerConfig ensuresXRequestedWith req))).
Proof.
  intros names.
  assert (Hne : providerId +:+ "-nonce" <> providerId +:+ "-refresh-token").
  { intros H. by apply append_inj_r in H. }
  unfold names. split; [done|]. split; [|split; [|split]].
  - unfold trace. rewrite start_run. cbn zeta.
    destruct (scope_of req) as [scope|];
      [destruct (truthy (JStr scope))|]; cbn;
      rewrite list_elem_of_singleton; intros H; apply Hne; symmetry;
      exact H.
  - destruct (frameHandler_cookies providerConfig exchange req)
      as [-> | (e & o & _ & _ & _ & ->)]; cbn.
    + apply not_elem_of_nil.
    + rewrite list_elem_of_singleton. exact Hne.
  - rewrite refresh_cookies. apply not_elem_of_nil.
  - unfold trace. destruct (ensuresXRequestedWith req) eqn:Hx.
    + rewrite (logout_run _ _ req Hx). cbn.
      rewrite list_elem_of_singleton. exact Hne.
    + rewrite (logout_guard _ _ req Hx). apply not_elem_of_nil.
Qed.

(** X18. For every [start] request whose scope is absent or the empty
    string, [start] throws the [InputError] [missing scope parameter] and
    does not call passport; by then it has drawn its sixteen bytes and
    staged the nonce cookie, which is the only entry of its log. *)
Theorem start_without_scope (req : request) :
  let h := start providerConfig entropy req in
  query req !! "scope" = None \/ query req !! "scope" = Some (JStr "") ->
  result h = Thrown (InputError "missing scope parameter")
  /\ idp_calls (trace h) = []
  /\ trace h
     = [ResCookie (providerId +:+ "-nonce")
          (JStr (toString_base64 (map entropy (seq 0 16)))) nonceOptions]
  /\ drawn (snd (h initial)) = 16%nat.
Proof.
  intros h Hq.
  assert (Hscope : scope_of req = Some "").
  { unfold scope_of, prop. by destruct Hq as [-> | ->]. }
  unfold h, result, trace. rewrite start_run, Hscope. by cbn.
Qed.

(** X19. A scope that cannot be printed.  A query such as
    [?scope[toString]=x] is parsed into an object with a key [toString]
    of its own, and calling [toString()] on it throws a [TypeError].
    [start] then throws after it has staged the nonce cookie and does not
    call passport; [refresh], past the header check and with a session
    cookie, throws after it has read the cookie: the grant is not
    requested, no status is set and nothing is sent. *)
Theorem scope_with_own_toString_throws
    (req : request) (fields : gmap string jsval) (x : jsval) :
  let h := start providerConfig entropy req in
  let h' := refresh providerConfig ensuresXRequestedWith grant req in
  query req !! "scope" = Some (JObj fields) ->
  fields !! "toString" = Some x ->
  (result h = Thrown TypeError
   /\ trace h
      = [ResCookie (providerId +:+ "-nonce")
           (JStr (toString_base64 (map entropy (seq 0 16)))) nonceOptions]
   /\ idp_calls (trace h) = [])
  /\ (ensuresXRequestedWith req = true ->
      truthy (prop (cookies req) (providerId +:+ "-refresh-token")) = true ->
      result h' = Thrown TypeError
      /\ trace h' = [ReadCookie (providerId +:+ "-refresh-token")]
      /\ idp_calls (trace h') = []
      /\ sent (trace h') = []).
Proof.
  intros h h' Hq Hx.
  assert (Hscope : scope_of req = None).
  { unfold scope_of, prop. rewrite Hq. cbv [default from_option id].
    cbn [toString]. by rewrite Hx. }
  split.
  - unfold h, result, trace. rewrite start_run, Hscope. by cbn.
  - intros Hh Hc. unfold h', result, trace.
    by rewrite (refresh_scope_throws _ _ _ req Hh Hc Hscope).
Qed.

(** X20. From [start] to the callback: after a [start] whose scope
    prints as a non-empty string, a request that brings back the cookie
    [start] has set, and as [state] the value [start] gave to passport,
    passes the nonce check of the callback, which hands it on to
    passport. *)
Theorem start_then_callback (req req' : request) (scope : string) :
  scope_of req = Some scope -> scope <> "" ->
  (forall n v o,
     (n, v, o) ∈ cookies_set (trace (start providerConfig entropy req)) ->
     cookies req' !! n = Some v) ->
  (forall opts,
     PassportAuthenticate "google" (AuthOptions opts)
       ∈ trace (start providerConfig entropy req) ->
     query req' !! "state" = opts !! "state") ->
  idp_calls (trace (frameHandler providerConfig exchange req'))
  = [PassportAuthenticate "google" AuthCallback].
Proof.
  intros Hscope Hne Hcookie Hstate.
  assert (Ht : truthy (JStr scope) = true).
  { destruct (truthy (JStr scope)) eqn:E; [done|].
    by apply truthy_JStr in E. }
  set (nonce := toString_base64 (map entropy (seq 0 16))).
  assert (Hnonce : truthy (JStr nonce) = true).
  { destruct (truthy (JStr nonce)) eqn:E; [done|].
    apply truthy_JStr in E. apply (f_equal String.length) in E.
    unfold nonce in E.
    rewrite toString_base64_length, length_map, length_seq in E.
    discriminate. }
  assert (Hc : cookies req' !! (providerId +:+ "-nonce") = Some (JStr nonce)).
  { apply (Hcookie _ _ nonceOptions). unfold trace.
    rewrite start_run, Hscope, Ht. apply list_elem_of_here. }
  assert (Hs : query req' !! "state" = Some (JStr nonce)).
  { erewrite Hstate.
    2:{ unfold trace. rewrite start_run, Hscope, Ht.
        apply list_elem_of_further, list_elem_of_here. }
    by simplify_map_eq. }
  unfold trace.
  rewrite frameHandler_valid_nonce.
  - cbn zeta. destruct (exchange req') as [[e u]|]; [|done].
    by rewrite frameHandler_callback_calls.
  - unfold prop. fold providerId. rewrite Hc. exact Hnonce.
  - unfold prop. fold providerId. rewrite Hc, Hs. cbn [default strict_eq].
    apply String.eqb_refl.
Qed.

(** X21. From the callback to [refresh]: a later request that brings back
    the cookie a callback has set, and passes the header check, has its
    token read and, when its scope can be printed, presented to the grant
    as the callback stored it, with that scope.  When the scope cannot be
    printed, [refresh] throws a [TypeError] with the cookie read and the
    grant not requested. *)
Theorem callback_then_refresh
    (req req' : request) (n : string) (v : jsval) (o : CookieOptions) :
  let h := refresh providerConfig ensuresXRequestedWith grant req' in
  (n, v, o) ∈ cookies_set (trace (frameHandler providerConfig exchange req)) ->
  cookies req' !! n = Some v ->
  ensuresXRequestedWith req' = true ->
  cookies_read (trace h) = [n]
  /\ (forall scope,
        scope_of req' = Some scope ->
        idp_calls (trace h)
        = [RequestNewAccessToken providerId v (requestParams scope)])
  /\ (scope_of req' = None ->
      idp_calls (trace h) = [] /\ result h = Thrown TypeError).
Proof.
  intros h Hin Hcookie Hx.
  destruct (frameHandler_cookies providerConfig exchange req)
    as [Hnone | (err & session & _ & _ & Ht & Hset)].
  { rewrite Hnone in Hin. by apply elem_of_nil in Hin. }
  rewrite Hset in Hin. apply list_elem_of_singleton in Hin.
  injection Hin as -> -> ->.
  assert (Hprop : prop (cookies req') (providerId +:+ "-refresh-token")
                  = prop session "refreshToken").
  { unfold prop at 1. fold providerId in Hcookie. by rewrite Hcookie. }
  assert (Hc : truthy (prop (cookies req') (providerId +:+ "-refresh-token"))
               = true) by (by rewrite Hprop).
  split; [|split].
  - destruct (refresh_cases req')
      as [[Hx' _] | [(_ & Hc' & _) | [(_ & _ & _ & H)
         | (_ & _ & scope & _ & [H | [H | [body H]]])]]];
      try congruence; unfold h; by rewrite H.
  - intros scope Hscope.
    destruct (refresh_cases req')
      as [[Hx' _] | [(_ & Hc' & _) | [(_ & _ & Hnone & _)
         | (_ & _ & scope' & Hscope' & [H | [H | [body H]]])]]];
      try congruence; unfold h; rewrite H, Hprop;
      replace scope' with scope by congruence; done.
  - intros Hscope. unfold h, result, trace.
    by rewrite (refresh_scope_throws _ _ _ req' Hx Hc Hscope).
Qed.

(** X22. From [logout] to [refresh]: a later request whose refresh-token
    cookie is what [logout] has set, or which has none because the
    browser dropped the expired cookie, is refused with 401
    [Missing session cookie], and the grant is not requested. *)
Theorem logout_then_refresh (req req' : request) :
  let t := trace (refresh providerConfig ensuresXRequestedWith grant req') in
  ensuresXRequestedWith req = true ->
  ensuresXRequestedWith req' = true ->
  (forall n v o,
     (n, v, o) ∈ cookies_set (trace (logout providerConfig
                                       ensuresXRequestedWith req)) ->
     cookies req' !! n = Some v \/ cookies req' !! n = None) ->
  t = [ReadCookie (providerId +:+ "-refresh-token"); ResStatus 401;
       ResSend (JStr "Missing session cookie")]
  /\ idp_calls t = [].
Proof.
  intros t Hx Hx' Hjar.
  assert (Hc : cookies req' !! (providerId +:+ "-refresh-token")
               = Some (JStr "")
               \/ cookies req' !! (providerId +:+ "-refresh-token") = None).
  { apply (Hjar _ _ (refreshTokenOptions 0)). unfold trace.
    rewrite (logout_run _ _ req Hx). apply list_elem_of_here. }
  unfold t, trace. rewrite refresh_missing_cookie; [done|done|].
  unfold prop. fold providerId. by destruct Hc as [-> | ->].
Qed.

End Coverage.

(** ** The further properties on concrete runs *)

(** X1 on the logout of scenario D. *)
Lemma logout_clears_session_witness :
  Demo.trusted Demo.refresh_request = true
  /\ trace (logout Demo.config Demo.trusted Demo.refresh_request)
     = [ResCookie "demo-refresh-token" (JStr "")
          {| maxAge := 0; secure := false; sameSite := "none";
             domain := "localhost"; path := "/auth/demo"; httpOnly := true |};
        ResSend (JStr "logout!")]
  /\ cookies_read (trace (logout Demo.config Demo.trusted Demo.refresh_request))
     = [].
Proof.
  split; [reflexivity|].
  destruct (logout_clears_session Demo.config Demo.trusted
              Demo.refresh_request eq_refl) as (Ht & _ & Hread & _).
  split; [exact Ht|exact Hread].
Defined.

(** X2 on a refresh that names a scope, on one that names none and on
    one whose scope cannot be printed. *)
Lemma refresh_forwards_token_and_scope_witness :
  (Demo.trusted Samples.refresh_with_scope = true
   /\ truthy (prop (cookies Samples.refresh_with_scope) "demo-refresh-token")
      = true
   /\ scope_of Samples.refresh_with_scope = Some "openid"
   /\ "openid" <> "")
  /\ idp_calls
       (trace (refresh Demo.config Demo.trusted Demo.grant_ok
                 Samples.refresh_with_scope))
     = [RequestNewAccessToken "demo" (JStr "rt1")
          {[ "scope" := JStr "openid" ]}]
  /\ scope_of Demo.refresh_request = Some ""
  /\ idp_calls
       (trace (refresh Demo.config Demo.trusted Demo.grant_failed
                 Demo.refresh_request))
     = [RequestNewAccessToken "demo" (JStr "rt1") ∅]
  /\ scope_of Samples.refresh_unprintable_scope = None
  /\ trace (refresh Demo.config Demo.trusted Demo.grant_ok
              Samples.refresh_unprintable_scope)
     = [ReadCookie "demo-refresh-token"]
  /\ result (refresh Demo.config Demo.trusted Demo.grant_ok
               Samples.refresh_unprintable_scope)
     = Thrown TypeError.
Proof.
  assert (Hne : "openid" <> "") by discriminate.
  split; [by repeat split|].
  destruct (refresh_forwards_token_and_scope Demo.config Demo.trusted
              Demo.grant_ok Samples.refresh_with_scope eq_refl eq_refl)
    as (_ & Hnamed & _).
  split; [exact (Hnamed "openid" eq_refl Hne)|]. split; [reflexivity|].
  destruct (refresh_forwards_token_and_scope Demo.config Demo.trusted
              Demo.grant_failed Demo.refresh_request eq_refl eq_refl)
    as (Hnone & _ & _).
  split; [exact (Hnone eq_refl)|]. split; [reflexivity|].
  destruct (refresh_forwards_token_and_scope Demo.config Demo.trusted
              Demo.grant_ok Samples.refresh_unprintable_scope eq_refl eq_refl)
    as (_ & _ & Hthrows).
  destruct (Hthrows eq_refl) as (_ & Ht & Hr).
  split; [exact Ht|exact Hr].
Defined.

(** X3 on a failed exchange that still carries a user. *)
Lemma exchange_error_reported_witness :
  let req := Demo.callback_request in
  (truthy (prop (cookies req) "demo-nonce") = true
   /\ strict_eq (prop (cookies req) "demo-nonce") (prop (query req) "state")
      = true
   /\ Samples.exchange_failed req
      = Some (JError "TokenError" "Bad Request",
              JObj (Demo.session (JStr "rt1")))
   /\ truthy (JError "TokenError" "Bad Request") = true
   /\ toString (JError "TokenError" "Bad Request")
      = Some "TokenError: Bad Request")
  /\ posted (trace (frameHandler Demo.config Samples.exchange_failed req))
     = [JObj (<["type" := JStr "auth-result"]>
                (<["error" :=
                     new_Error "Google auth failed, TokenError: Bad Request"]>
                   ∅))]
  /\ cookies_set (trace (frameHandler Demo.config Samples.exchange_failed req))
     = [].
Proof.
  intros req. split; [by repeat split|].
  destruct (exchange_error_reported Demo.config Samples.exchange_failed
              Demo.callback_request (JError "TokenError" "Bad Request")
              (JObj (Demo.session (JStr "rt1")))
              eq_refl eq_refl eq_refl eq_refl) as [Hprinted _].
  destruct (Hprinted "TokenError: Bad Request" eq_refl)
    as (Ht & Hcookies & _).
  split; [|exact Hcookies].
  unfold req. rewrite Ht. reflexivity.
Defined.

(** X4 on passport's [false] user. *)
Lemma callback_without_session_object_witness :
  let req := Demo.callback_request in
  (truthy (prop (cookies req) "demo-nonce") = true
   /\ strict_eq (prop (cookies req) "demo-nonce") (prop (query req) "state")
      = true
   /\ Samples.exchange_denied req = Some (JNull, JBool false)
   /\ truthy JNull = false
   /\ JBool false <> JUndefined /\ JBool false <> JNull
   /\ (forall session, JBool false <> JObj session))
  /\ trace (frameHandler Demo.config Samples.exchange_denied req)
     = [ReadCookie "demo-nonce";
        PassportAuthenticate "google" AuthCallback;
        PostMessageResponse
          (JObj (<["type" := JStr "auth-result"]>
                   (<["error" := new_Error "Missing refresh token"]> ∅)))].
Proof.
  intros req.
  assert (Hu : JBool false <> JUndefined) by discriminate.
  assert (Hn : JBool false <> JNull) by discriminate.
  assert (Ho : forall session, JBool false <> JObj session) by discriminate.
  split; [by repeat split|].
  exact (proj1 (callback_without_session_object Demo.config
                  Samples.exchange_denied Demo.callback_request JNull
                  (JBool false) eq_refl eq_refl eq_refl eq_refl Hu Hn Ho)).
Defined.

(** X5 on a callback without user. *)
Lemma callback_throws_without_user_witness :
  let req := Demo.callback_request in
  (truthy (prop (cookies req) "demo-nonce") = true
   /\ strict_eq (prop (cookies req) "demo-nonce") (prop (query req) "state")
      = true
   /\ Samples.exchange_no_user req = Some (JNull, JUndefined)
   /\ truthy JNull = false)
  /\ result (frameHandler Demo.config Samples.exchange_no_user req)
     = Thrown TypeError
  /\ posted (trace (frameHandler Demo.config Samples.exchange_no_user req))
     = [].
Proof.
  intros req. split; [by repeat split|].
  destruct (callback_throws_without_user Demo.config Samples.exchange_no_user
              Demo.callback_request JNull JUndefined
              eq_refl eq_refl eq_refl eq_refl (or_introl eq_refl))
    as (Hr & _ & Hposted & _).
  split; [exact Hr|exact Hposted].
Defined.

(** X6 on scenario C: passport was called, so cookie and state agree. *)
Lemma exchange_iff_nonce_matches_witness :
  let req := Demo.callback_request in
  idp_calls (trace (frameHandler Demo.config Demo.exchange_ok req))
  = [PassportAuthenticate "google" AuthCallback]
  /\ prop (cookies req) "demo-nonce" = prop (query req) "state".
Proof.
  intros req.
  destruct (exchange_iff_nonce_matches Demo.config Demo.exchange_ok
              Demo.callback_request) as (_ & Hiff & Hsame).
  assert (Hcall : idp_calls
                    (trace (frameHandler Demo.config Demo.exchange_ok
                              Demo.callback_request))
                  = [PassportAuthenticate "google" AuthCallback]).
  { apply Hiff. split; reflexivity. }
  split; [exact Hcall|exact (proj1 (Hsame Hcall))].
Defined.

(** X7 on a repeated [state] parameter. *)
Lemma structured_state_rejected_witness :
  let req := Samples.callback_repeated_state in
  (truthy (prop (cookies req) "demo-nonce") = true
   /\ prop (query req) "state" = JArr [JStr "X"; JStr "X"])
  /\ trace (frameHandler Demo.config Demo.exchange_ok req)
     = [ReadCookie "demo-nonce"; ResStatus 401; ResSend (JStr "Invalid nonce")].
Proof.
  intros req. split; [by split|].
  exact (proj1 (structured_state_rejected Demo.config Demo.exchange_ok
                  Samples.callback_repeated_state eq_refl
                  (or_introl (ex_intro _ [JStr "X"; JStr "X"] eq_refl)))).
Defined.

(** X8 on scenario A. *)
Lemma start_requests_offline_consent_witness :
  (scope_of Demo.start_request = Some "openid profile"
   /\ "openid profile" <> "")
  /\ exists opts : gmap string jsval,
       idp_calls (trace (start Demo.config Demo.entropy Demo.start_request))
       = [PassportAuthenticate "google" (AuthOptions opts)]
       /\ opts !! "accessType" = Some (JStr "offline")
       /\ opts !! "prompt" = Some (JStr "consent").
Proof.
  assert (Hne : "openid profile" <> "") by discriminate.
  split; [by split|].
  destruct (start_requests_offline_consent Demo.config Demo.entropy
              Demo.start_request "openid profile" eq_refl Hne)
    as (opts & Hcalls & _ & _ & Haccess & Hprompt & _).
  exists opts. split; [exact Hcalls|]. split; [exact Haccess|exact Hprompt].
Defined.

(** X9 on a session that the verify callback built with the refresh token
    [rt1], and on one built without refresh token. *)
Lemma verified_session_reaches_browser_witness :
  let req := Demo.callback_request in
  let user (refreshToken : jsval) : jsval :=
    JObj (<["profile" := JObj {[ "id" := JStr "u1" ]}]>
            (<["idToken" := JStr "id2"]>
               (<["accessToken" := JStr "at1"]>
                  (<["refreshToken" := refreshToken]>
                     (<["scope" := JStr "openid profile"]>
                        (<["expiresInSeconds" := JNum (safe 3599)]> ∅)))))) in
  (truthy (prop (cookies req) "demo-nonce") = true
   /\ strict_eq (prop (cookies req) "demo-nonce") (prop (query req) "state")
      = true
   /\ Samples.verified (JStr "rt1")
      = (Returned (JUndefined, user (JStr "rt1")), initial)
   /\ Samples.exchange_verified (JStr "rt1") req
      = Some (JUndefined, user (JStr "rt1"))
   /\ truthy (JStr "rt1") = true)
  /\ (exists payload : gmap string jsval,
        posted (trace (frameHandler Demo.config
                         (Samples.exchange_verified (JStr "rt1")) req))
        = [JObj (<["type" := JStr "auth-result"]>
                   (<["payload" := JObj payload]> ∅))]
        /\ dom payload
           = ({["profile"; "idToken"; "accessToken"; "scope";
                "expiresInSeconds"]} : gset string)
        /\ payload !! "idToken" = Some (JStr "id2"))
  /\ (Samples.exchange_verified JUndefined req
      = Some (JUndefined, user JUndefined)
      /\ truthy JUndefined = false)
  /\ cookies_set (trace (frameHandler Demo.config
                           (Samples.exchange_verified JUndefined) req))
     = [].
Proof.
  intros req user. split; [by repeat split|].
  destruct (verified_session_reaches_browser Demo.config
              (Samples.exchange_verified (JStr "rt1")) Demo.callback_request
              (JStr "at1") (JStr "rt1") (JObj {[ "id" := JStr "u1" ]})
              Demo.token_response initial initial JUndefined
              (user (JStr "rt1")) eq_refl eq_refl eq_refl eq_refl)
    as [Hwith _].
  destruct (Hwith eq_refl) as (payload & Hposted & Hdom & _ & Hid & _).
  split; [exists payload; split; [exact Hposted|split; [exact Hdom|exact Hid]]|].
  split; [by split|].
  destruct (verified_session_reaches_browser Demo.config
              (Samples.exchange_verified JUndefined) Demo.callback_request
              (JStr "at1") JUndefined (JObj {[ "id" := JStr "u1" ]})
              Demo.token_response initial initial JUndefined
              (user JUndefined) eq_refl eq_refl eq_refl eq_refl)
    as [_ Hwithout].
  exact (proj2 (Hwithout eq_refl)).
Defined.

(** X10 on a refresh with an empty cookie. *)
Lemma refresh_with_empty_cookie_witness :
  let req := Samples.refresh_empty_cookie in
  (Demo.trusted req = true
   /\ cookies req !! "demo-refresh-token" = Some (JStr "")
   /\ truthy (JStr "") = false)
  /\ trace (refresh Demo.config Demo.trusted Demo.grant_ok req)
     = [ReadCookie "demo-refresh-token"; ResStatus 401;
        ResSend (JStr "Missing session cookie")].
Proof.
  intros req. split; [by repeat split|].
  exact (proj1 (refresh_with_empty_cookie Demo.config Demo.trusted
                  Demo.grant_ok Samples.refresh_empty_cookie (JStr "")
                  eq_refl eq_refl eq_refl)).
Defined.

(** X15 on [scope=openid&scope=profile]. *)
Lemma start_joins_repeated_scope_witness :
  (query Samples.start_repeated_scope !! "scope"
   = Some (JArr (map JStr ["openid"; "profile"]))
   /\ join "," ["openid"; "profile"] <> "")
  /\ exists opts : gmap string jsval,
       idp_calls
         (trace (start Demo.config Demo.entropy Samples.start_repeated_scope))
       = [PassportAuthenticate "google" (AuthOptions opts)]
       /\ opts !! "scope" = Some (JStr "openid,profile").
Proof.
  assert (Hjoin : join "," ["openid"; "profile"] <> "") by discriminate.
  split; [by split|].
  exact (start_joins_repeated_scope Demo.config Demo.entropy
           Samples.start_repeated_scope ["openid"; "profile"] eq_refl Hjoin).
Defined.

(** X16 on a grant that reports an access token without token response. *)
Lemma refresh_throws_without_token_response_witness :
  let req := Demo.refresh_request in
  (Demo.trusted req = true
   /\ truthy (prop (cookies req) "demo-refresh-token") = true
   /\ scope_of req = Some ""
   /\ Samples.grant_without_results "demo" (JStr "rt1") ∅
      = Some (JNull, JStr "at2", JUndefined, JUndefined)
   /\ truthy JNull = false /\ truthy (JStr "at2") = true)
  /\ result (refresh Demo.config Demo.trusted Samples.grant_without_results req)
     = Thrown TypeError
  /\ sent (trace (refresh Demo.config Demo.trusted
                    Samples.grant_without_results req)) = [].
Proof.
  intros req. split; [by repeat split|].
  destruct (refresh_throws_without_token_response Demo.config Demo.trusted
              Samples.grant_without_results Demo.refresh_request ""
              JNull (JStr "at2") JUndefined JUndefined
              eq_refl eq_refl eq_refl eq_refl eq_refl eq_refl
              (or_introl eq_refl))
    as (Hr & _ & Hsent & _).
  split; [exact Hr|exact Hsent].
Defined.

(** X18 on a start without scope. *)
Lemma start_without_scope_witness :
  query Demo.start_without_scope !! "scope" = None
  /\ result (start Demo.config Demo.entropy Demo.start_without_scope)
     = Thrown (InputError "missing scope parameter")
  /\ drawn (snd (start Demo.config Demo.entropy Demo.start_without_scope
                   initial)) = 16%nat.
Proof.
  split; [reflexivity|].
  destruct (start_without_scope Demo.config Demo.entropy
              Demo.start_without_scope (or_introl eq_refl))
    as (Hr & _ & _ & Hd).
  split; [exact Hr|exact Hd].
Defined.

(** X19 on [?scope[toString]=x]. *)
Lemma scope_with_own_toString_throws_witness :
  let fields : gmap string jsval := {[ "toString" := JStr "x" ]} in
  (query Samples.start_unprintable_scope !! "scope" = Some (JObj fields)
   /\ fields !! "toString" = Some (JStr "x"))
  /\ result (start Demo.config Demo.entropy Samples.start_unprintable_scope)
     = Thrown TypeError
  /\ idp_calls
       (trace (start Demo.config Demo.entropy Samples.start_unprintable_scope))
     = [].
Proof.
  intros fields. split; [by split|].
  destruct (scope_with_own_toString_throws Demo.config Demo.entropy
              Demo.trusted Demo.grant_ok Samples.start_unprintable_scope
              fields (JStr "x") eq_refl eq_refl)
    as [(Hr & _ & Hcalls) _].
  split; [exact Hr|exact Hcalls].
Defined.

(** X20 on scenario A followed by the redirect back. *)
Lemma start_then_callback_witness :
  (scope_of Demo.start_request = Some "openid profile"
   /\ "openid profile" <> "")
  /\ cookies_set (trace (start Demo.config Demo.entropy Demo.start_request))
     = [("demo-nonce", JStr "BSpPdJm+4wgtUnecweYLMA==",
         {| maxAge := 600000; secure := false; sameSite := "none";
            domain := "localhost"; path := "/auth/demo/handler";
            httpOnly := true |})]
  /\ cookies Samples.callback_after_start !! "demo-nonce"
     = Some (JStr "BSpPdJm+4wgtUnecweYLMA==")
  /\ query Samples.callback_after_start !! "state"
     = Some (JStr "BSpPdJm+4wgtUnecweYLMA==")
  /\ idp_calls (trace (frameHandler Demo.config Demo.exchange_ok
                         Samples.callback_after_start))
     = [PassportAuthenticate "google" AuthCallback].
Proof.
  assert (Hne : "openid profile" <> "") by discriminate.
  split; [by split|]. do 3 (split; [reflexivity|]).
  apply (start_then_callback Demo.config Demo.entropy Demo.exchange_ok
           Demo.start_request Samples.callback_after_start
           "openid profile" eq_refl Hne).
  - intros n v o Hin. rewrite scenario_start in Hin. cbn in Hin.
    apply list_elem_of_singleton in Hin. injection Hin as -> -> ->.
    reflexivity.
  - intros opts Hin. rewrite scenario_start in Hin.
    apply elem_of_cons in Hin as [Hin | Hin]; [discriminate|].
    apply list_elem_of_singleton in Hin. injection Hin as ->.
    reflexivity.
Defined.

(** X21 on scenario C followed by a refresh. *)
Lemma callback_then_refresh_witness :
  let cookie :=
    ("demo-refresh-token", JStr "rt1",
     {| maxAge := 86400000000; secure := false; sameSite := "none";
        domain := "localhost"; path := "/auth/demo"; httpOnly := true |}) in
  (cookie ∈ cookies_set (trace (frameHandler Demo.config Demo.exchange_ok
                                   Demo.callback_request))
   /\ cookies Demo.refresh_request !! "demo-refresh-token" = Some (JStr "rt1")
   /\ Demo.trusted Demo.refresh_request = true
   /\ scope_of Demo.refresh_request = Some "")
  /\ cookies_read (trace (refresh Demo.config Demo.trusted Demo.grant_ok
                            Demo.refresh_request))
     = ["demo-refresh-token"]
  /\ idp_calls (trace (refresh Demo.config Demo.trusted Demo.grant_ok
                         Demo.refresh_request))
     = [RequestNewAccessToken "demo" (JStr "rt1") ∅].
Proof.
  intros cookie.
  assert (Hin : cookie ∈ cookies_set
                  (trace (frameHandler Demo.config Demo.exchange_ok
                            Demo.callback_request))).
  { rewrite scenario_callback. apply list_elem_of_here. }
  split; [by repeat split|].
  destruct (callback_then_refresh Demo.config Demo.trusted Demo.exchange_ok
              Demo.grant_ok Demo.callback_request Demo.refresh_request
              _ _ _ Hin eq_refl eq_refl) as (Hread & Hcalls & _).
  split; [exact Hread|exact (Hcalls "" eq_refl)].
Defined.

(** X22 on scenario D followed by a refresh with the emptied cookie. *)
Lemma logout_then_refresh_witness :
  (Demo.trusted Demo.refresh_request = true
   /\ Demo.trusted Samples.refresh_empty_cookie = true
   /\ cookies Samples.refresh_empty_cookie !! "demo-refresh-token"
      = Some (JStr ""))
  /\ trace (refresh Demo.config Demo.trusted Demo.grant_ok
              Samples.refresh_empty_cookie)
     = [ReadCookie "demo-refresh-token"; ResStatus 401;
        ResSend (JStr "Missing session cookie")].
Proof.
  split; [by repeat split|].
  refine (proj1 (logout_then_refresh Demo.config Demo.trusted Demo.grant_ok
                   Demo.refresh_request Samples.refresh_empty_cookie
                   eq_refl eq_refl _)).
  intros n v o Hin. rewrite scenario_logout in Hin. cbn in Hin.
  apply list_elem_of_singleton in Hin. injection Hin as -> -> ->.
  left. reflexivity.
Defined.
